(** * The HAL IPC transport of android/hal-ipc.c

    A shallow embedding of the client side of the HAL <-> daemon transport:
    [hal_ipc_init], [hal_ipc_cleanup], [hal_ipc_cmd] and the notification
    thread [notification_handler].

    The three file-level statics ([cmd_sk], [notif_sk], [notif_th]) are an
    explicit state record; every system call leaves an [event] in a log, and
    what the kernel or the peer answers to a call is an input of the model.
    [exit(EXIT_FAILURE)] and a read through a null pointer are outcomes of
    their own, next to a normal return. *)

From Stdlib Require Import ZArith List Bool Lia.
Import ListNotations.
Open Scope Z_scope.

(** ** Buffers *)

(** A byte is a [Z] in 0..255, a buffer a list of bytes. *)
Definition buffer : Type := list Z.

(** [memset(buf, 0, n)] on an [n]-byte object. *)
Definition zeroed (n : nat) : buffer := repeat 0 n.

(** Copying [data] to the start of [buf]; the bytes of [buf] behind it stay. *)
Definition store (data buf : buffer) : buffer :=
  data ++ skipn (length data) buf.

Definition is_null {A : Type} (p : option A) : bool :=
  match p with
  | Some _ => false
  | None => true
  end.

(** The object behind a pointer that is known not to be null. *)
Definition pointee {A : Type} (d : A) (p : option A) : A :=
  match p with
  | Some v => v
  | None => d
  end.

(** ** hal-msg.h: the wire format *)

Module Msg.

(** Modelled from the spec: hal-msg.h is not among the sources.  The header
    is the packed record of section 6: [service_id : u8], [opcode : u8],
    [len : u16], the payload behind it. *)
Record hal_msg_hdr : Type := {
  service_id : Z;
  opcode : Z;
  len : Z
}.

(** sizeof(struct hal_msg_hdr) *)
Definition hdr_size : Z := 4.

(** Modelled from the spec: the body under the error opcode is "a fixed-size
    structure whose sole field is a status code"; one byte here, as the
    other header fields. *)
Definition rsp_error_size : Z := 1.

(** The header as it lies in memory (host byte order, low byte first). *)
Definition hdr_bytes (h : hal_msg_hdr) : buffer :=
  [service_id h; opcode h; len h mod 256; len h / 256].

(** Reading the header fields back through a [struct hal_msg_hdr *]. *)
Definition hdr_of_bytes (b : buffer) : hal_msg_hdr :=
  {| service_id := nth 0 b 0;
     opcode := nth 1 b 0;
     len := nth 2 b 0 + 256 * nth 3 b 0 |}.

(** [hal_msg->payload], the [len] bytes behind the header. *)
Definition payload (b : buffer) : buffer :=
  firstn (Z.to_nat (len (hdr_of_bytes b))) (skipn 4 b).

(** [((struct hal_msg_rsp_error * ) rsp)->status] *)
Definition rsp_error_status (rsp : buffer) : Z := nth 0 rsp 0.

End Msg.

(** ** Ancillary data *)

Record cmsghdr : Type := {
  cmsg_level : Z;
  cmsg_type : Z;
  cmsg_data : Z      (* the int behind CMSG_DATA *)
}.

(** [CMSG_FIRSTHDR]: the first control message, or the null pointer when the
    kernel delivered none. *)
Definition CMSG_FIRSTHDR (control : list cmsghdr) : option cmsghdr :=
  match control with
  | [] => None
  | c :: _ => Some c
  end.

(** ** System calls and their log *)

Inductive event : Type :=
| EvSocket (ret : Z)
| EvBind (sk ret : Z)
| EvListen (sk ret : Z)
| EvPropertySet
| EvPoll (sk ret : Z)
| EvAccept (sk ret : Z)
| EvClose (fd : Z)
| EvShutdownRd (fd : Z)
| EvPthreadCreate (ret : Z)
| EvPthreadJoin (th : Z)
| EvMutexLock
| EvMutexUnlock
| EvSendmsg (sk : Z) (data : buffer) (ret : Z)
| EvRecvmsg (sk : Z) (ret : Z)
| EvBtNotifyAdapter (opcode : Z) (payload : buffer) (len : Z)
| EvExit
| EvNotifThread (e : event).

(** What one [sendmsg] meets on a SOCK_SEQPACKET socket: the record goes
    out whole, or the call fails.  There is no short send of a record. *)
Inductive send_event : Type :=
| SendFail
| SendWhole.

(** The kernel's side of [sendmsg]: the return value is the length of the
    record, or -1. *)
Definition sendmsg_model (ev : send_event) (data : buffer) : Z :=
  match ev with
  | SendFail => -1
  | SendWhole => Z.of_nat (length data)
  end.

Definition send_failed (ev : send_event) : bool :=
  match ev with
  | SendFail => true
  | SendWhole => false
  end.

(** What one [recvmsg] finds on a SOCK_SEQPACKET socket: a failure, or one
    record with the control messages that ride with it.  An empty record is
    what a closed or shut-down socket delivers. *)
Inductive recv_event : Type :=
| RecvFail
| RecvData (data : buffer) (anc : list cmsghdr).

(** The [struct msghdr] after the call, with the return value. *)
Record msghdr : Type := {
  msg_ret : Z;
  msg_iov0 : buffer;
  msg_iov1 : buffer;
  msg_control : list cmsghdr
}.

(** The kernel's side of [recvmsg] with a two-element iovec: the record is
    scattered over [iov0] (all of it) and the first [iov1_len] bytes of
    [iov1]; what does not fit is dropped; the return value counts the bytes
    stored.  [cmsgbuf] has room for one control message carrying one int; no
    control buffer when [want_control] is false. *)
Definition recvmsg_model (ev : recv_event) (iov0 iov1 : buffer) (iov1_len : Z)
    (want_control : bool) : msghdr :=
  match ev with
  | RecvFail =>
      {| msg_ret := -1; msg_iov0 := iov0; msg_iov1 := iov1;
         msg_control := [] |}
  | RecvData data anc =>
      let d0 := firstn (length iov0) data in
      let d1 := firstn (Z.to_nat iov1_len) (skipn (length iov0) data) in
      {| msg_ret := Z.of_nat (length d0 + length d1);
         msg_iov0 := store d0 iov0;
         msg_iov1 := store d1 iov1;
         msg_control := if want_control then firstn 1 anc else [] |}
  end.

(** ** The statics of hal-ipc.c and the monad over them *)

Record ipc_state : Type := {
  cmd_sk : Z;
  notif_sk : Z;
  notif_th : Z
}.

(** The initialisers of the three statics. *)
Definition initial_state : ipc_state :=
  {| cmd_sk := -1; notif_sk := -1; notif_th := 0 |}.

Inductive outcome (A : Type) : Type :=
| Returns (a : A)     (* the function returned *)
| Exits               (* exit(EXIT_FAILURE) *)
| Undefined           (* a read through a null pointer *)
| Blocked.            (* stuck in a blocking call *)

Arguments Returns {A} a.
Arguments Exits {A}.
Arguments Undefined {A}.
Arguments Blocked {A}.

Definition M (A : Type) : Type :=
  ipc_state -> list event * outcome (A * ipc_state).

Definition ret {A : Type} (a : A) : M A :=
  fun s => ([], Returns (a, s)).

Definition bind {A B : Type} (m : M A) (f : A -> M B) : M B :=
  fun s =>
    match m s with
    | (l, Returns (a, s')) => (l ++ fst (f a s'), snd (f a s'))
    | (l, Exits) => (l, Exits)
    | (l, Undefined) => (l, Undefined)
    | (l, Blocked) => (l, Blocked)
    end.

Notation "x <- m ;; k" := (bind m (fun x => k))
  (at level 61, m at next level, right associativity).
Notation "m ;; k" := (bind m (fun _ => k))
  (at level 61, right associativity).

Definition emit (e : event) : M unit :=
  fun s => ([e], Returns (tt, s)).

Definition get : M ipc_state :=
  fun s => ([], Returns (s, s)).

Definition put (s' : ipc_state) : M unit :=
  fun _ => ([], Returns (tt, s')).

(** error(...); exit(EXIT_FAILURE); *)
Definition exit_failure {A : Type} : M A :=
  fun _ => ([EvExit], Exits).

Definition undefined {A : Type} : M A :=
  fun _ => ([], Undefined).

Definition blocked {A : Type} : M A :=
  fun _ => ([], Blocked).

Definition set_cmd_sk (v : Z) : M unit :=
  s <- get ;; put {| cmd_sk := v; notif_sk := notif_sk s; notif_th := notif_th s |}.

Definition set_notif_sk (v : Z) : M unit :=
  s <- get ;; put {| cmd_sk := cmd_sk s; notif_sk := v; notif_th := notif_th s |}.

Definition set_notif_th (v : Z) : M unit :=
  s <- get ;; put {| cmd_sk := cmd_sk s; notif_sk := notif_sk s; notif_th := v |}.

Definition close (fd : Z) : M unit := emit (EvClose fd).

Definition sendmsg (sk : Z) (data : buffer) (ev : send_event) : M Z :=
  let r := sendmsg_model ev data in
  fun s => ([EvSendmsg sk data r], Returns (r, s)).

Definition recvmsg (sk : Z) (ev : recv_event) (iov0 iov1 : buffer)
    (iov1_len : Z) (want_control : bool) : M msghdr :=
  let m := recvmsg_model ev iov0 iov1 iov1_len want_control in
  fun s => ([EvRecvmsg sk (msg_ret m)], Returns (m, s)).

(** ** Receiving auxiliary data *)

(** Both receive paths end in the loop

      for (cmsg = CMSG_FIRSTHDR(&msg); !cmsg; cmsg = CMSG_NXTHDR(&msg, cmsg))

    whose condition is [!cmsg]: the body runs while [cmsg] is null.  With a
    control message present the condition is false at once, the body never
    runs and [fd] keeps the value it had; with none the body starts and
    reads [cmsg->cmsg_level] through the null pointer ([None]). *)
Definition recv_aux (control : list cmsghdr) (fd : Z) : option Z :=
  match CMSG_FIRSTHDR control with
  | Some _ => Some fd
  | None => None
  end.

(** ** accept_connection and hal_ipc_init *)

(** What the kernel answers to the calls of [hal_ipc_init], in call order.
    [pthread_create] answers 0 or a positive error number. *)
Record init_env : Type := {
  socket_ret : Z;
  bind_ret : Z;
  listen_ret : Z;
  poll1_ret : Z;
  accept1_ret : Z;
  poll2_ret : Z;
  accept2_ret : Z;
  pthread_create_ret : Z;
  pthread_id : Z
}.

Definition accept_connection (sk poll_ret accept_ret : Z) : M Z :=
  emit (EvPoll sk poll_ret) ;;
  if poll_ret <? 0 then ret (-1)
  else if poll_ret =? 0 then ret (-1)
  else
    emit (EvAccept sk accept_ret) ;;
    if accept_ret <? 0 then ret (-1) else ret accept_ret.

(** [pthread_create(&notif_th, ...)]: the handle is written when the call
    succeeds. *)
Definition pthread_create (env : init_env) : M Z :=
  emit (EvPthreadCreate (pthread_create_ret env)) ;;
  (if pthread_create_ret env =? 0 then set_notif_th (pthread_id env)
   else ret tt) ;;
  ret (pthread_create_ret env).

Definition hal_ipc_init (env : init_env) : M bool :=
  let sk := socket_ret env in
  emit (EvSocket sk) ;;
  if sk <? 0 then ret false
  else
    emit (EvBind sk (bind_ret env)) ;;
    if bind_ret env <? 0 then close sk ;; ret false
    else
      emit (EvListen sk (listen_ret env)) ;;
      if listen_ret env <? 0 then close sk ;; ret false
      else
        emit EvPropertySet ;;
        c <- accept_connection sk (poll1_ret env) (accept1_ret env) ;;
        set_cmd_sk c ;;
        if c <? 0 then close sk ;; ret false
        else
          n <- accept_connection sk (poll2_ret env) (accept2_ret env) ;;
          set_notif_sk n ;;
          if n <? 0 then
            close sk ;; close c ;; set_cmd_sk (-1) ;; ret false
          else
            close sk ;;
            err <- pthread_create env ;;
            if err <? 0 then
              set_notif_th 0 ;;
              close c ;; set_cmd_sk (-1) ;;
              close n ;; set_notif_sk (-1) ;;
              ret false
            else ret true.

(** Some step up to the second accept fails, or [pthread_create] answers a
    negative value. *)
Definition init_step_fails (env : init_env) : Prop :=
  socket_ret env < 0 \/ bind_ret env < 0 \/ listen_ret env < 0
  \/ poll1_ret env <= 0 \/ accept1_ret env < 0
  \/ poll2_ret env <= 0 \/ accept2_ret env < 0
  \/ pthread_create_ret env < 0.

(** The descriptors a log leaves open: those that [socket] and [accept]
    handed out and no [close] took back. *)
Fixpoint remove_fd (fd : Z) (l : list Z) : list Z :=
  match l with
  | [] => []
  | x :: l' => if x =? fd then l' else x :: remove_fd fd l'
  end.

Fixpoint open_fds (log : list event) (acc : list Z) : list Z :=
  match log with
  | [] => acc
  | EvSocket r :: log' =>
      open_fds log' (if r <? 0 then acc else acc ++ [r])
  | EvAccept _ r :: log' =>
      open_fds log' (if r <? 0 then acc else acc ++ [r])
  | EvClose fd :: log' => open_fds log' (remove_fd fd acc)
  | _ :: log' => open_fds log' acc
  end.

(** ** hal_ipc_cmd *)

(** The events of the calling thread in a log. *)
Fixpoint main_thread (log : list event) : list event :=
  match log with
  | [] => []
  | EvNotifThread _ :: log' => main_thread log'
  | e :: log' => e :: main_thread log'
  end.

(** The [sendmsg] and [recvmsg] calls in a log. *)
Definition is_sendmsg (e : event) : bool :=
  match e with
  | EvSendmsg _ _ _ => true
  | _ => false
  end.

Definition is_recvmsg (e : event) : bool :=
  match e with
  | EvRecvmsg _ _ => true
  | _ => false
  end.

Definition is_mutex (e : event) : bool :=
  match e with
  | EvMutexLock | EvMutexUnlock => true
  | _ => false
  end.

(** A log with the events of the notification thread taken out of their
    wrapper, in place. *)
Fixpoint flatten_threads (log : list event) : list event :=
  match log with
  | [] => []
  | EvNotifThread e :: log' => e :: flatten_threads log'
  | e :: log' => e :: flatten_threads log'
  end.

Definition is_nil {A : Type} (l : list A) : bool :=
  match l with
  | [] => true
  | _ :: _ => false
  end.

(** [if (!rsp || !rsp_len)]: the call then points both at its local [err],
    zeroed, and at [err_len = sizeof(err)]. *)
Definition use_err (rsp_len : option Z) (rsp : option buffer) : bool :=
  is_null rsp || is_null rsp_len.

(** [iv[1].iov_base] and [iv[1].iov_len] of the receive. *)
Definition rsp_iov_base (rsp_len : option Z) (rsp : option buffer) : buffer :=
  if use_err rsp_len rsp then zeroed (Z.to_nat Msg.rsp_error_size)
  else pointee [] rsp.

Definition rsp_iov_len (rsp_len : option Z) (rsp : option buffer) : Z :=
  if use_err rsp_len rsp then Msg.rsp_error_size else pointee 0 rsp_len.

(** The prefix of the log that every round trip shares. *)
Definition cmd_log (s : ipc_state) (service_id opcode len : Z)
    (param : buffer) (send : send_event) : list event :=
  [EvMutexLock;
   EvSendmsg (cmd_sk s)
     (Msg.hdr_bytes {| Msg.service_id := service_id; Msg.opcode := opcode;
                       Msg.len := len |}
      ++ firstn (Z.to_nat len) param)
     (sendmsg_model send
        (Msg.hdr_bytes {| Msg.service_id := service_id;
                          Msg.opcode := opcode; Msg.len := len |}
         ++ firstn (Z.to_nat len) param))].

(** What the caller finds after the call: the return value and the objects
    behind the three output pointers ([None] for a null pointer). *)
Record cmd_result : Type := {
  status : Z;
  rsp_len_out : option Z;
  rsp_out : option buffer;
  fd_out : option Z
}.

(** The constants as hal-msg.h and hal.h of the daemon give them. *)
Module Bluez.
Definition HAL_MSG_OP_ERROR : Z := 0.
Definition HAL_MSG_MINIMUM_EVENT : Z := 129.
Definition HAL_SERVICE_ID_BLUETOOTH : Z := 1.
Definition BT_STATUS_SUCCESS : Z := 0.
Definition BLUEZ_HAL_MTU : nat := 1024.
End Bluez.

(** Sample inputs: a connected transport, a passed descriptor, and a kernel
    that grants every step of the set-up but the thread. *)
Module Sample.

Definition live : ipc_state :=
  {| cmd_sk := 3; notif_sk := 4; notif_th := 9 |}.

(** SOL_SOCKET / SCM_RIGHTS carrying descriptor 7. *)
Definition passed_fd : cmsghdr :=
  {| cmsg_level := 1; cmsg_type := 1; cmsg_data := 7 |}.

(** [pthread_create] answers EAGAIN (11). *)
Definition env_no_thread : init_env :=
  {| socket_ret := 3; bind_ret := 0; listen_ret := 0;
     poll1_ret := 1; accept1_ret := 4;
     poll2_ret := 1; accept2_ret := 5;
     pthread_create_ret := 11; pthread_id := 0 |}.

(** Every step granted, the thread made. *)
Definition env_good : init_env :=
  {| socket_ret := 3; bind_ret := 0; listen_ret := 0;
     poll1_ret := 1; accept1_ret := 4;
     poll2_ret := 1; accept2_ret := 5;
     pthread_create_ret := 0; pthread_id := 9 |}.

(** The daemon connects once and then not again within the timeout. *)
Definition env_timeout : init_env :=
  {| socket_ret := 3; bind_ret := 0; listen_ret := 0;
     poll1_ret := 1; accept1_ret := 4;
     poll2_ret := 0; accept2_ret := 0;
     pthread_create_ret := 0; pthread_id := 9 |}.

(** The statics with the command socket torn down, the thread still on. *)
Definition torn : ipc_state :=
  {| cmd_sk := -1; notif_sk := 4; notif_th := 9 |}.

(** Notifications, each with a control message: opcode 0x81 for the
    Bluetooth service with the one-byte body 7, and opcode 0x82 with no
    body for a service the dispatcher does not know. *)
Definition notif_bt : recv_event :=
  RecvData [1; 129; 1; 0; 7] [passed_fd].

Definition notif_other : recv_event :=
  RecvData [2; 130; 0; 0] [passed_fd].

(** A header that declares two body bytes, with one. *)
Definition notif_short : recv_event :=
  RecvData [1; 129; 2; 0; 7] [passed_fd].

End Sample.

Section HalIpc.

(** Constants of hal-msg.h and hal.h, which are not among the sources. *)
Variable HAL_MSG_OP_ERROR : Z.
Variable HAL_MSG_MINIMUM_EVENT : Z.
Variable HAL_SERVICE_ID_BLUETOOTH : Z.
Variable BT_STATUS_SUCCESS : Z.
Variable BLUEZ_HAL_MTU : nat.

(** [send] is what [sendmsg] meets, [reply] what [recvmsg] finds. *)
Definition hal_ipc_cmd (service_id opcode len : Z) (param : buffer)
    (rsp_len : option Z) (rsp : option buffer) (fd : option Z)
    (send : send_event) (reply : recv_event) : M cmd_result :=
  s <- get ;;
  if cmd_sk s <? 0 then exit_failure
  else
    let scratch := use_err rsp_len rsp in
    let rsp_buf := rsp_iov_base rsp_len rsp in
    let rsp_cap := rsp_iov_len rsp_len rsp in
    let hal_msg :=
      {| Msg.service_id := service_id; Msg.opcode := opcode;
         Msg.len := len |} in
    emit EvMutexLock ;;
    r <- sendmsg (cmd_sk s)
           (Msg.hdr_bytes hal_msg ++ firstn (Z.to_nat len) param) send ;;
    if r <? 0 then emit EvMutexUnlock ;; exit_failure
    else
      m <- recvmsg (cmd_sk s) reply (zeroed (Z.to_nat Msg.hdr_size))
             rsp_buf rsp_cap (negb (is_null fd)) ;;
      if msg_ret m <? 0 then emit EvMutexUnlock ;; exit_failure
      else
        emit EvMutexUnlock ;;
        let hal_msg := Msg.hdr_of_bytes (msg_iov0 m) in
        if msg_ret m <? Msg.hdr_size then exit_failure
        else if negb (msg_ret m =? Msg.hdr_size + Msg.len hal_msg) then
          exit_failure
        else if negb (Msg.opcode hal_msg =? opcode)
                && negb (Msg.opcode hal_msg =? HAL_MSG_OP_ERROR) then
          exit_failure
        else if Msg.opcode hal_msg =? HAL_MSG_OP_ERROR then
          ret {| status := Msg.rsp_error_status (msg_iov1 m);
                 rsp_len_out := rsp_len;
                 rsp_out := if scratch then rsp else Some (msg_iov1 m);
                 fd_out := fd |}
        else
          fd' <- match fd with
                 | Some _ =>
                     (* *fd = -1, then the loop *)
                     match recv_aux (msg_control m) (-1) with
                     | Some v => ret (Some v)
                     | None => undefined
                     end
                 | None => ret None
                 end ;;
          ret {| status := BT_STATUS_SUCCESS;
                 rsp_len_out :=
                   if scratch then rsp_len else Some (Msg.len hal_msg);
                 rsp_out := if scratch then rsp else Some (msg_iov1 m);
                 fd_out := fd' |}.

(** ** The notification thread *)

Definition notification_dispatch (msg : buffer) (fd : Z) : M unit :=
  let h := Msg.hdr_of_bytes msg in
  if Msg.service_id h =? HAL_SERVICE_ID_BLUETOOTH then
    emit (EvBtNotifyAdapter (Msg.opcode h) (Msg.payload msg) (Msg.len h))
  else ret tt.

(** Where one turn of the [while (true)] loop goes once [recvmsg] is back. *)
Inductive iter_result : Type :=
| Dispatch (msg : buffer) (fd : Z)   (* notification_dispatch(hal_msg, fd) *)
| Break                              (* break: leave the loop *)
| Fatal                              (* exit(EXIT_FAILURE) *)
| NullDeref.                         (* the auxiliary-data loop, no cmsg *)

Definition notification_iter (cmd_sk_now ret_ : Z) (buf : buffer)
    (control : list cmsghdr) : iter_result :=
  if ret_ <? 0 then Fatal
  else if ret_ =? 0 then
    (if cmd_sk_now =? -1 then Break else Fatal)
  else
    let hal_msg := Msg.hdr_of_bytes buf in
    if ret_ <? Msg.hdr_size then Fatal
    else if Msg.opcode hal_msg <? HAL_MSG_MINIMUM_EVENT then Fatal
    else if negb (ret_ =? Msg.hdr_size + Msg.len hal_msg) then Fatal
    else
      match recv_aux control (-1) with
      | Some fd => Dispatch buf fd
      | None => NullDeref
      end.

(** One turn of the loop on what the socket delivers; [k] is the rest of
    the loop.  [cmd_sk] is read after [recvmsg] has returned. *)
Definition handler_turn (ev : recv_event) (k : M unit) : M unit :=
  s <- get ;;
  m <- recvmsg (notif_sk s) ev (zeroed BLUEZ_HAL_MTU) [] 0 true ;;
  s' <- get ;;
  match notification_iter (cmd_sk s') (msg_ret m) (msg_iov0 m)
          (msg_control m) with
  | Dispatch msg fd => notification_dispatch msg fd ;; k
  | Break => close (notif_sk s') ;; set_notif_sk (-1)
  | Fatal => exit_failure
  | NullDeref => undefined
  end.

(** The thread on a socket that holds the records [queue]; [shut] says that
    the socket is shut down for reading, so that a read on the empty queue
    returns 0 instead of blocking. *)
Fixpoint notification_handler (queue : list recv_event) (shut : bool) :
    M unit :=
  match queue with
  | ev :: queue' => handler_turn ev (notification_handler queue' shut)
  | [] => if shut then handler_turn (RecvData [] []) blocked else blocked
  end.

(** ** hal_ipc_cleanup *)

(** The events of the notification thread, marked as its own. *)
Definition in_notif_thread (m : M unit) : M unit :=
  fun s => (map EvNotifThread (fst (m s)), snd (m s)).

(** What stands behind [notif_th] when teardown starts: no thread (no
    [pthread_create] has succeeded, the handle is not that of a thread), or
    the notification thread, sitting in [recvmsg] with the records
    [pending] still queued on its socket. *)
Inductive notif_thread : Type :=
| NoThread
| InRecvmsg (pending : list recv_event).

(** [pthread_join(notif_th, NULL)], whose result the code does not look at:
    with the thread behind the handle the caller waits while it runs to its
    end, on a socket now shut down for reading; with no thread the call
    comes back at once. *)
Definition hal_ipc_cleanup (th : notif_thread) : M unit :=
  s <- get ;;
  close (cmd_sk s) ;;
  set_cmd_sk (-1) ;;
  emit (EvShutdownRd (notif_sk s)) ;;
  match th with
  | InRecvmsg pending => in_notif_thread (notification_handler pending true)
  | NoThread => ret tt
  end ;;
  emit (EvPthreadJoin (notif_th s)) ;;
  set_notif_th 0.

(** ** Reads of the notification thread, classified *)

(** What the thread's [recvmsg] leaves behind on [ev]. *)
Definition received (ev : recv_event) : msghdr :=
  recvmsg_model ev (zeroed BLUEZ_HAL_MTU) [] 0 true.

(** The three framing tests of the loop, all passed. *)
Definition well_framed (m : msghdr) : bool :=
  (Msg.hdr_size <=? msg_ret m)
  && (HAL_MSG_MINIMUM_EVENT <=? Msg.opcode (Msg.hdr_of_bytes (msg_iov0 m)))
  && (msg_ret m =? Msg.hdr_size + Msg.len (Msg.hdr_of_bytes (msg_iov0 m))).

(** A read the loop carries through to [notification_dispatch]: framed
    well, and with a control message (so that the auxiliary-data loop does
    not start on a null [cmsg]). *)
Definition dispatchable (ev : recv_event) : bool :=
  well_framed (received ev) && negb (is_nil (msg_control (received ev))).

(** A read that ends the process: a failed one, or a non-empty one that
    fails a framing test. *)
Definition fatal_read (ev : recv_event) : bool :=
  (msg_ret (received ev) <? 0)
  || (negb (msg_ret (received ev) =? 0) && negb (well_framed (received ev))).

(** What [notification_dispatch] leaves in the log. *)
Definition dispatch_log (msg : buffer) : list event :=
  if Msg.service_id (Msg.hdr_of_bytes msg) =? HAL_SERVICE_ID_BLUETOOTH then
    [EvBtNotifyAdapter (Msg.opcode (Msg.hdr_of_bytes msg)) (Msg.payload msg)
       (Msg.len (Msg.hdr_of_bytes msg))]
  else [].

(** The log of one turn that dispatches. *)
Definition turn_log (sk : Z) (ev : recv_event) : list event :=
  EvRecvmsg sk (msg_ret (received ev))
  :: dispatch_log (msg_iov0 (received ev)).

(** * Properties *)

(** ** The monad *)

Lemma bind_emit {B : Type} (e : event) (k : M B) (s : ipc_state) :
  bind (emit e) (fun _ => k) s = (e :: fst (k s), snd (k s)).
Proof. reflexivity. Qed.

Lemma bind_get {B : Type} (f : ipc_state -> M B) (s : ipc_state) :
  bind get f s = f s s.
Proof.
  unfold bind, get. simpl. destruct (f s s). reflexivity.
Qed.

(** Running a monadic body: unfold the plumbing, then follow its tests. *)
Ltac run_monad :=
  cbv beta iota zeta delta
    [bind ret emit get put exit_failure undefined blocked close
     sendmsg recvmsg set_cmd_sk set_notif_sk set_notif_th recv_aux
     CMSG_FIRSTHDR].

Ltac split_branches :=
  repeat (cbv beta iota;
          match goal with
          | |- context [if ?c then _ else _] =>
              lazymatch type of c with
              | bool => destruct c
              end
          end).

(** ** The header a receive leaves in [hal_msg] *)

(** The header buffer is zeroed before the receive, so reading it back
    gives the fields of the record itself, zero where the record is short. *)
Lemma hdr_of_received (data : buffer) :
  Msg.hdr_of_bytes (store (firstn 4 data) (zeroed 4)) = Msg.hdr_of_bytes data.
Proof.
  destruct data as [|a [|b [|c [|d rest]]]]; reflexivity.
Qed.

Lemma recvmsg_model_iov0 (data : buffer) (anc : list cmsghdr) (iov1 : buffer)
    (n : Z) (c : bool) :
  Msg.hdr_of_bytes
    (msg_iov0 (recvmsg_model (RecvData data anc)
                 (zeroed (Z.to_nat Msg.hdr_size)) iov1 n c))
  = Msg.hdr_of_bytes data.
Proof. apply hdr_of_received. Qed.

(** ** hal_ipc_cmd, run *)

(** A record sent whole does not take the failure branch. *)
Lemma sendmsg_whole_test (data : buffer) :
  (Z.of_nat (length data) <? 0) = false.
Proof. apply Z.ltb_ge. lia. Qed.

Lemma hal_ipc_cmd_run (service_id opcode len : Z) (param : buffer)
    (rsp_len : option Z) (rsp : option buffer) (fd : option Z)
    (send : send_event) (reply : recv_event) (s : ipc_state) :
  let m := recvmsg_model reply (zeroed (Z.to_nat Msg.hdr_size))
             (rsp_iov_base rsp_len rsp) (rsp_iov_len rsp_len rsp)
             (negb (is_null fd)) in
  let h := Msg.hdr_of_bytes (msg_iov0 m) in
  let pre := cmd_log s service_id opcode len param send in
  let rcv := pre ++ [EvRecvmsg (cmd_sk s) (msg_ret m); EvMutexUnlock] in
  hal_ipc_cmd service_id opcode len param rsp_len rsp fd send reply s =
  if cmd_sk s <? 0 then ([EvExit], Exits)
  else if send_failed send then (pre ++ [EvMutexUnlock; EvExit], Exits)
  else if msg_ret m <? 0 then (rcv ++ [EvExit], Exits)
  else if msg_ret m <? Msg.hdr_size then (rcv ++ [EvExit], Exits)
  else if negb (msg_ret m =? Msg.hdr_size + Msg.len h) then
    (rcv ++ [EvExit], Exits)
  else if negb (Msg.opcode h =? opcode)
          && negb (Msg.opcode h =? HAL_MSG_OP_ERROR) then
    (rcv ++ [EvExit], Exits)
  else if Msg.opcode h =? HAL_MSG_OP_ERROR then
    (rcv,
     Returns ({| status := Msg.rsp_error_status (msg_iov1 m);
                 rsp_len_out := rsp_len;
                 rsp_out := if use_err rsp_len rsp then rsp
                            else Some (msg_iov1 m);
                 fd_out := fd |}, s))
  else
    match fd, msg_control m with
    | Some _, [] => (rcv, Undefined)
    | _, _ =>
        (rcv,
         Returns ({| status := BT_STATUS_SUCCESS;
                     rsp_len_out := if use_err rsp_len rsp then rsp_len
                                    else Some (Msg.len h);
                     rsp_out := if use_err rsp_len rsp then rsp
                                else Some (msg_iov1 m);
                     fd_out := match fd with
                               | Some _ => Some (-1)
                               | None => None
                               end |}, s))
    end.
Proof.
  intros m h pre rcv. subst rcv pre h m.
  unfold hal_ipc_cmd, cmd_log.
  run_monad.
  destruct send; cbn [send_failed sendmsg_model].
  - change (-1 <? 0) with true.
    destruct (cmd_sk s <? 0); reflexivity.
  - rewrite sendmsg_whole_test.
    split_branches; try reflexivity;
      destruct fd; try reflexivity;
      match goal with
      | |- context [msg_control ?m] => destruct (msg_control m)
      end; reflexivity.
Qed.

(** A record with a full header whose body fits the receive buffer arrives
    whole. *)
Lemma recvmsg_model_whole (sid op l0 l1 : Z) (body : buffer)
    (anc : list cmsghdr) (iov1 : buffer) (cap : Z) (c : bool) :
  Z.of_nat (length body) <= cap ->
  recvmsg_model (RecvData (sid :: op :: l0 :: l1 :: body) anc)
    (zeroed (Z.to_nat Msg.hdr_size)) iov1 cap c
  = {| msg_ret := Msg.hdr_size + Z.of_nat (length body);
       msg_iov0 := [sid; op; l0; l1];
       msg_iov1 := store body iov1;
       msg_control := if c then firstn 1 anc else [] |}.
Proof.
  intros Hfit.
  unfold recvmsg_model.
  change (zeroed (Z.to_nat Msg.hdr_size)) with [0; 0; 0; 0].
  change (length [0; 0; 0; 0]) with 4%nat.
  change (firstn 4 (sid :: op :: l0 :: l1 :: body)) with [sid; op; l0; l1].
  change (skipn 4 (sid :: op :: l0 :: l1 :: body)) with body.
  rewrite (firstn_all2 (n := Z.to_nat cap) body) by lia.
  change (length [sid; op; l0; l1]) with 4%nat.
  f_equal. unfold Msg.hdr_size. lia.
Qed.

(** Settling the tests of a run from the hypotheses at hand. *)
Ltac settle_tests :=
  repeat match goal with
         | |- context [?a <? ?b] =>
             destruct (Z.ltb_spec a b); [try lia | try lia]
         | |- context [?a =? ?b] =>
             destruct (Z.eqb_spec a b); [try lia | try lia];
             try congruence
         end;
  cbn [negb andb orb].

(** ** hal_ipc_cmd: the command socket must be open *)

(** C9: with the command socket not open ([cmd_sk] negative, the sentinel
    -1 before initialisation and after teardown), [hal_ipc_cmd] returns no
    status: it logs the error and exits the process, before any system call
    on the socket. *)
Theorem hal_ipc_cmd_closed_socket_exits (service_id opcode len : Z)
    (param : buffer) (rsp_len : option Z) (rsp : option buffer)
    (fd : option Z) (send : send_event) (reply : recv_event) (s : ipc_state) :
  cmd_sk s < 0 ->
  hal_ipc_cmd service_id opcode len param rsp_len rsp fd send reply s
  = ([EvExit], Exits).
Proof.
  intros Hsk. rewrite hal_ipc_cmd_run.
  settle_tests. reflexivity.
Qed.

(** ** hal_ipc_cmd: the send *)


(** ** hal_ipc_cmd: the opcode of the response *)

(** C5: a response whose opcode is neither the opcode of the request nor
    [HAL_MSG_OP_ERROR] makes the call exit the process; and whenever the
    call returns to its caller, the response had one of these two opcodes. *)
Theorem hal_ipc_cmd_opcode_check (service_id opcode len : Z)
    (param : buffer) (rsp_len : option Z) (rsp : option buffer)
    (fd : option Z) (send : send_event) (data : buffer) (anc : list cmsghdr)
    (s : ipc_state) :
  let run :=
    hal_ipc_cmd service_id opcode len param rsp_len rsp fd send
      (RecvData data anc) s in
  let rsp_opcode := Msg.opcode (Msg.hdr_of_bytes data) in
  (rsp_opcode <> opcode -> rsp_opcode <> HAL_MSG_OP_ERROR ->
   snd run = Exits)
  /\ (forall r s', snd run = Returns (r, s') ->
      rsp_opcode = opcode \/ rsp_opcode = HAL_MSG_OP_ERROR).
Proof.
  intros run rsp_opcode. subst run rsp_opcode.
  rewrite hal_ipc_cmd_run.
  rewrite recvmsg_model_iov0.
  set (m := recvmsg_model _ _ _ _ _).
  set (op := Msg.opcode (Msg.hdr_of_bytes data)).
  split.
  - intros Hx He.
    destruct (Z.eqb_spec op opcode) as [|_]; [contradiction|].
    destruct (Z.eqb_spec op HAL_MSG_OP_ERROR) as [|_]; [contradiction|].
    cbn [negb andb].
    split_branches; reflexivity.
  - intros r s'.
    destruct (Z.eqb_spec op opcode) as [|Hx]; [intros _; now left|].
    destruct (Z.eqb_spec op HAL_MSG_OP_ERROR) as [|He]; [intros _; now right|].
    cbn [negb andb].
    split_branches; discriminate.
Qed.

(** ** hal_ipc_cmd: a response under the error opcode *)

(** What the call does with a well-formed error response, for any caller. *)
Lemma hal_ipc_cmd_error_run (service_id opcode len : Z) (param : buffer)
    (rsp_len : option Z) (rsp : option buffer) (fd : option Z)
    (sid st : Z) (anc : list cmsghdr) (s : ipc_state) :
  0 <= cmd_sk s ->
  Msg.rsp_error_size <= rsp_iov_len rsp_len rsp ->
  hal_ipc_cmd service_id opcode len param rsp_len rsp fd SendWhole
    (RecvData [sid; HAL_MSG_OP_ERROR; 1; 0; st] anc) s
  = (cmd_log s service_id opcode len param SendWhole
     ++ [EvRecvmsg (cmd_sk s) 5; EvMutexUnlock],
     Returns ({| status :=
                   Msg.rsp_error_status
                     (store [st] (rsp_iov_base rsp_len rsp));
                 rsp_len_out := rsp_len;
                 rsp_out := if use_err rsp_len rsp then rsp
                            else Some (store [st] (rsp_iov_base rsp_len rsp));
                 fd_out := fd |}, s)).
Proof.
  intros Hsk Hcap.
  rewrite hal_ipc_cmd_run.
  rewrite recvmsg_model_whole by exact Hcap.
  cbn [msg_ret msg_iov0 msg_iov1 msg_control length send_failed].
  change (Msg.hdr_of_bytes [sid; HAL_MSG_OP_ERROR; 1; 0])
    with {| Msg.service_id := sid; Msg.opcode := HAL_MSG_OP_ERROR;
            Msg.len := 1 |}.
  cbn [Msg.opcode Msg.len].
  change (Msg.hdr_size + Z.of_nat 1) with 5.
  change (Msg.hdr_size + 1) with 5.
  change (5 <? 0) with false. change (5 <? Msg.hdr_size) with false.
  change (5 =? 5) with true.
  rewrite Z.eqb_refl, andb_false_r.
  cbn [negb].
  destruct (Z.ltb_spec (cmd_sk s) 0); [lia|].
  reflexivity.
Qed.

(** C3, as the code has it: the receive is aimed at the caller's response
    buffer, so the error body lands there.  With the command socket open,
    the send not failed and room for the error body in the buffer, a
    well-formed response under [HAL_MSG_OP_ERROR] makes the call return the
    status of the body; the first byte of the caller's buffer now holds that
    status (the bytes behind it stay), and the caller's [rsp_len] keeps its
    value. *)
Theorem hal_ipc_cmd_error_rsp (service_id opcode len : Z) (param : buffer)
    (cap : Z) (buf : buffer) (fd : option Z) (sid st : Z)
    (anc : list cmsghdr) (s : ipc_state) :
  0 <= cmd_sk s ->
  Msg.rsp_error_size <= cap ->
  hal_ipc_cmd service_id opcode len param (Some cap) (Some buf) fd SendWhole
    (RecvData [sid; HAL_MSG_OP_ERROR; 1; 0; st] anc) s
  = (cmd_log s service_id opcode len param SendWhole
     ++ [EvRecvmsg (cmd_sk s) 5; EvMutexUnlock],
     Returns ({| status := st;
                 rsp_len_out := Some cap;
                 rsp_out := Some (st :: skipn 1 buf);
                 fd_out := fd |}, s)).
Proof.
  intros Hsk Hcap.
  rewrite hal_ipc_cmd_error_run by assumption.
  reflexivity.
Qed.

(** C10: under a response with the error opcode the call never comes to
    the descriptor step: whenever it returns, the fd slot holds what the
    caller had put there, not -1; and on a well-formed error response it
    does return, with the status of the body. *)
Theorem hal_ipc_cmd_error_rsp_keeps_fd (service_id opcode len : Z)
    (param : buffer) (rsp_len : option Z) (rsp : option buffer)
    (fd_val : Z) (send : send_event) (s : ipc_state) :
  (forall data anc r s',
     Msg.opcode (Msg.hdr_of_bytes data) = HAL_MSG_OP_ERROR ->
     snd (hal_ipc_cmd service_id opcode len param rsp_len rsp (Some fd_val)
            send (RecvData data anc) s) = Returns (r, s') ->
     fd_out r = Some fd_val)
  /\ (forall sid st anc,
       0 <= cmd_sk s ->
       send = SendWhole ->
       Msg.rsp_error_size <= rsp_iov_len rsp_len rsp ->
       exists r,
         snd (hal_ipc_cmd service_id opcode len param rsp_len rsp
                (Some fd_val) send
                (RecvData [sid; HAL_MSG_OP_ERROR; 1; 0; st] anc) s)
         = Returns (r, s)
         /\ status r = st
         /\ fd_out r = Some fd_val).
Proof.
  split.
  - intros data anc r s' Hop.
    rewrite hal_ipc_cmd_run.
    rewrite recvmsg_model_iov0, Hop, Z.eqb_refl, andb_false_r.
    split_branches; try discriminate;
      cbn [snd]; intros H; injection H as <- _; reflexivity.
  - intros sid st anc Hsk -> Hcap.
    rewrite hal_ipc_cmd_error_run by assumption.
    eexists. split; [reflexivity|]. split; reflexivity.
Qed.

(** ** hal_ipc_cmd: the descriptor step *)

(** C1 fails on the code.  On a well-formed response with the opcode of the
    request (not the error opcode) to a call with an fd slot: with one
    control message attached, the call returns [BT_STATUS_SUCCESS] and the
    slot holds -1, whatever descriptor the message carries; with none
    attached, the loop reads through the null [cmsg] and the call does not
    return. *)
Theorem hal_ipc_cmd_passed_fd_dropped (service_id opcode len : Z)
    (param : buffer) (rsp_len : option Z) (rsp : option buffer)
    (fd_val sid l0 l1 : Z) (body : buffer) (c : cmsghdr)
    (s : ipc_state) :
  0 <= cmd_sk s ->
  opcode <> HAL_MSG_OP_ERROR ->
  Z.of_nat (length body) = l0 + 256 * l1 ->
  Z.of_nat (length body) <= rsp_iov_len rsp_len rsp ->
  (exists r,
     snd (hal_ipc_cmd service_id opcode len param rsp_len rsp (Some fd_val)
            SendWhole (RecvData (sid :: opcode :: l0 :: l1 :: body) [c]) s)
     = Returns (r, s)
     /\ status r = BT_STATUS_SUCCESS
     /\ fd_out r = Some (-1))
  /\ snd (hal_ipc_cmd service_id opcode len param rsp_len rsp (Some fd_val)
            SendWhole (RecvData (sid :: opcode :: l0 :: l1 :: body) []) s)
     = Undefined.
Proof.
  intros Hsk Hop Hlen Hcap.
  rewrite !hal_ipc_cmd_run.
  rewrite !recvmsg_model_whole by exact Hcap.
  cbn [msg_ret msg_iov0 msg_iov1 msg_control is_null negb firstn
       send_failed].
  change (Msg.hdr_of_bytes [sid; opcode; l0; l1])
    with {| Msg.service_id := sid; Msg.opcode := opcode;
            Msg.len := l0 + 256 * l1 |}.
  cbn [Msg.opcode Msg.len].
  rewrite Hlen, !Z.eqb_refl.
  cbn [negb andb].
  destruct (Z.eqb_spec opcode HAL_MSG_OP_ERROR); [contradiction|].
  destruct (Z.ltb_spec (cmd_sk s) 0); [lia|].
  assert (Hge : 0 <= l0 + 256 * l1) by lia.
  unfold Msg.hdr_size.
  destruct (Z.ltb_spec (4 + (l0 + 256 * l1)) 0); [lia|].
  destruct (Z.ltb_spec (4 + (l0 + 256 * l1)) 4); [lia|].
  split; [|reflexivity].
  eexists. split; [reflexivity|]. split; reflexivity.
Qed.

(** ** The notification thread, one turn *)

Lemma handler_turn_run (ev : recv_event) (k : M unit) (s : ipc_state) :
  let m := recvmsg_model ev (zeroed BLUEZ_HAL_MTU) [] 0 true in
  let rcv := EvRecvmsg (notif_sk s) (msg_ret m) in
  handler_turn ev k s =
  match notification_iter (cmd_sk s) (msg_ret m) (msg_iov0 m)
          (msg_control m) with
  | Dispatch msg fd =>
      (rcv :: fst ((notification_dispatch msg fd ;; k) s),
       snd ((notification_dispatch msg fd ;; k) s))
  | Break =>
      ([rcv; EvClose (notif_sk s)],
       Returns (tt, {| cmd_sk := cmd_sk s; notif_sk := -1;
                       notif_th := notif_th s |}))
  | Fatal => ([rcv; EvExit], Exits)
  | NullDeref => ([rcv], Undefined)
  end.
Proof.
  intros m rcv. subst rcv m.
  unfold handler_turn.
  rewrite bind_get.
  unfold recvmsg, bind at 1. cbv beta iota zeta.
  rewrite bind_get.
  destruct (notification_iter _ _ _ _); reflexivity.
Qed.

(** C6: in a turn of the receive loop, a read that returns 0 ends the loop
    quietly exactly when the command socket has been torn down ([cmd_sk] is
    -1): the thread closes its socket, resets [notif_sk] and returns; with
    the command socket still live the same read ends the process.  A read
    that returns a negative value always ends the process. *)
Theorem notification_zero_read (ev : recv_event) (k : M unit)
    (s : ipc_state) :
  let m := recvmsg_model ev (zeroed BLUEZ_HAL_MTU) [] 0 true in
  (msg_ret m = 0 ->
   (cmd_sk s = -1 ->
    handler_turn ev k s
    = ([EvRecvmsg (notif_sk s) 0; EvClose (notif_sk s)],
       Returns (tt, {| cmd_sk := -1; notif_sk := -1;
                       notif_th := notif_th s |})))
   /\ (cmd_sk s <> -1 ->
       handler_turn ev k s = ([EvRecvmsg (notif_sk s) 0; EvExit], Exits)))
  /\ (msg_ret m < 0 ->
      handler_turn ev k s
      = ([EvRecvmsg (notif_sk s) (msg_ret m); EvExit], Exits)).
Proof.
  intros m. rewrite handler_turn_run. fold m.
  unfold notification_iter.
  split.
  - intros ->. change (0 <? 0) with false. change (0 =? 0) with true.
    cbv iota. split.
    + intros Hsk. rewrite Hsk. reflexivity.
    + intros Hsk. destruct (Z.eqb_spec (cmd_sk s) (-1)); [contradiction|].
      reflexivity.
  - intros Hneg. destruct (Z.ltb_spec (msg_ret m) 0); [reflexivity|lia].
Qed.

(** C7: a notification read with fewer bytes than a header, with an opcode
    below [HAL_MSG_MINIMUM_EVENT], or with a byte count other than header
    size plus the declared length never reaches [notification_dispatch];
    the turn ends the process before the dispatch.  (The read that returns
    0 is the shut-down case and receives no notification.) *)
Theorem notification_framing_violation_fatal (ev : recv_event) (k : M unit)
    (s : ipc_state) :
  let m := recvmsg_model ev (zeroed BLUEZ_HAL_MTU) [] 0 true in
  let hal_msg := Msg.hdr_of_bytes (msg_iov0 m) in
  msg_ret m < Msg.hdr_size
  \/ Msg.opcode hal_msg < HAL_MSG_MINIMUM_EVENT
  \/ msg_ret m <> Msg.hdr_size + Msg.len hal_msg ->
  (forall msg fd,
     notification_iter (cmd_sk s) (msg_ret m) (msg_iov0 m) (msg_control m)
     <> Dispatch msg fd)
  /\ (msg_ret m <> 0 ->
      handler_turn ev k s
      = ([EvRecvmsg (notif_sk s) (msg_ret m); EvExit], Exits)).
Proof.
  intros m hal_msg Hbad.
  rewrite handler_turn_run. fold m.
  unfold notification_iter. fold hal_msg.
  destruct (Z.ltb_spec (msg_ret m) 0).
  { split; [discriminate|reflexivity]. }
  destruct (Z.eqb_spec (msg_ret m) 0).
  { split; [|contradiction].
    destruct (cmd_sk s =? -1); discriminate. }
  destruct (Z.ltb_spec (msg_ret m) Msg.hdr_size).
  { split; [discriminate|reflexivity]. }
  destruct (Z.ltb_spec (Msg.opcode hal_msg) HAL_MSG_MINIMUM_EVENT).
  { split; [discriminate|reflexivity]. }
  destruct (Z.eqb_spec (msg_ret m) (Msg.hdr_size + Msg.len hal_msg)).
  { exfalso. destruct Hbad as [Hb|[Hb|Hb]]; [lia|lia|contradiction]. }
  split; [discriminate|reflexivity].
Qed.

(** ** hal_ipc_cleanup *)

Lemma recvmsg_model_empty (anc : list cmsghdr) (iov0 iov1 : buffer) (n : Z)
    (c : bool) :
  msg_ret (recvmsg_model (RecvData [] anc) iov0 iov1 n c) = 0.
Proof.
  unfold recvmsg_model. cbn [msg_ret].
  rewrite skipn_nil, !firstn_nil. reflexivity.
Qed.

(** The thread on a socket that is shut down and empty, the command socket
    torn down: one read, then the quiet end. *)
Lemma notification_handler_stops (s : ipc_state) :
  cmd_sk s = -1 ->
  notification_handler [] true s
  = ([EvRecvmsg (notif_sk s) 0; EvClose (notif_sk s)],
     Returns (tt, {| cmd_sk := -1; notif_sk := -1;
                     notif_th := notif_th s |})).
Proof.
  intros Hsk. cbn [notification_handler].
  rewrite handler_turn_run, recvmsg_model_empty.
  unfold notification_iter.
  change (0 <? 0) with false. change (0 =? 0) with true. cbv iota.
  rewrite Hsk. reflexivity.
Qed.

(** C8: teardown closes the command socket and resets [cmd_sk] to -1, then
    shuts the notification socket down for reading (no close), then joins
    the thread.  With no record queued on the notification socket the
    thread's read returns 0, it finds [cmd_sk] at -1, leaves the loop,
    closes its socket and ends: the process does not exit, and the three
    statics are back at their sentinels. *)
Theorem hal_ipc_cleanup_order (s : ipc_state) :
  hal_ipc_cleanup (InRecvmsg []) s
  = ([EvClose (cmd_sk s);
      EvShutdownRd (notif_sk s);
      EvNotifThread (EvRecvmsg (notif_sk s) 0);
      EvNotifThread (EvClose (notif_sk s));
      EvPthreadJoin (notif_th s)],
     Returns (tt, {| cmd_sk := -1; notif_sk := -1; notif_th := 0 |}))
  /\ main_thread (fst (hal_ipc_cleanup (InRecvmsg []) s))
     = [EvClose (cmd_sk s); EvShutdownRd (notif_sk s);
        EvPthreadJoin (notif_th s)]
  /\ ~ In EvExit (fst (hal_ipc_cleanup (InRecvmsg []) s))
  /\ ~ In (EvNotifThread EvExit) (fst (hal_ipc_cleanup (InRecvmsg []) s)).
Proof.
  assert (Hrun : hal_ipc_cleanup (InRecvmsg []) s
    = ([EvClose (cmd_sk s);
        EvShutdownRd (notif_sk s);
        EvNotifThread (EvRecvmsg (notif_sk s) 0);
        EvNotifThread (EvClose (notif_sk s));
        EvPthreadJoin (notif_th s)],
       Returns (tt, {| cmd_sk := -1; notif_sk := -1; notif_th := 0 |}))).
  { unfold hal_ipc_cleanup, in_notif_thread.
    run_monad. cbn [fst snd app].
    rewrite notification_handler_stops by reflexivity.
    reflexivity. }
  rewrite Hrun. cbn [fst main_thread In].
  split; [reflexivity|]. split; [reflexivity|].
  split; intros H; repeat (destruct H as [H|H]; [discriminate|]); exact H.
Qed.

(** ** hal_ipc_init *)

Ltac init_tests :=
  repeat (cbn [fst snd app open_fds remove_fd];
          match goal with
          | |- context [?a <? ?b] =>
              destruct (Z.ltb_spec a b); try (exfalso; lia)
          | |- context [?a =? ?b] =>
              destruct (Z.eqb_spec a b); try (exfalso; lia)
          end).

(** X3: the failures the code does see.  From the initial statics, when a
    step up to the second accept fails or [pthread_create] answers a
    negative value, [hal_ipc_init] returns false with every descriptor it
    was handed closed again and the statics at their sentinels. *)
Lemma hal_ipc_init_failure_releases (env : init_env) :
  init_step_fails env ->
  snd (hal_ipc_init env initial_state) = Returns (false, initial_state)
  /\ open_fds (fst (hal_ipc_init env initial_state)) [] = [].
Proof.
  unfold init_step_fails, hal_ipc_init, accept_connection, pthread_create,
    initial_state.
  intros Hfail.
  run_monad.
  init_tests; cbn [fst snd app open_fds remove_fd];
    try (exfalso; lia); split; reflexivity.
Qed.

(** C2 fails on the code at the last step.  [pthread_create] reports a
    failure as a positive error number and the code tests [err < 0]: with
    all earlier steps good and such an answer, [hal_ipc_init] returns true,
    closes only the listening socket, and leaves [cmd_sk] and [notif_sk]
    live with no thread started. *)
Theorem hal_ipc_init_pthread_error_missed (env : init_env) (s : ipc_state) :
  0 <= socket_ret env -> 0 <= bind_ret env -> 0 <= listen_ret env ->
  0 < poll1_ret env -> 0 <= accept1_ret env ->
  0 < poll2_ret env -> 0 <= accept2_ret env ->
  0 < pthread_create_ret env ->
  hal_ipc_init env s
  = ([EvSocket (socket_ret env);
      EvBind (socket_ret env) (bind_ret env);
      EvListen (socket_ret env) (listen_ret env);
      EvPropertySet;
      EvPoll (socket_ret env) (poll1_ret env);
      EvAccept (socket_ret env) (accept1_ret env);
      EvPoll (socket_ret env) (poll2_ret env);
      EvAccept (socket_ret env) (accept2_ret env);
      EvClose (socket_ret env);
      EvPthreadCreate (pthread_create_ret env)],
     Returns (true, {| cmd_sk := accept1_ret env;
                       notif_sk := accept2_ret env;
                       notif_th := notif_th s |}))
  /\ open_fds (fst (hal_ipc_init env s)) []
     = [accept1_ret env; accept2_ret env].
Proof.
  intros Hs Hb Hl Hp1 Ha1 Hp2 Ha2 Hth.
  assert (Hrun : hal_ipc_init env s
    = ([EvSocket (socket_ret env);
        EvBind (socket_ret env) (bind_ret env);
        EvListen (socket_ret env) (listen_ret env);
        EvPropertySet;
        EvPoll (socket_ret env) (poll1_ret env);
        EvAccept (socket_ret env) (accept1_ret env);
        EvPoll (socket_ret env) (poll2_ret env);
        EvAccept (socket_ret env) (accept2_ret env);
        EvClose (socket_ret env);
        EvPthreadCreate (pthread_create_ret env)],
       Returns (true, {| cmd_sk := accept1_ret env;
                         notif_sk := accept2_ret env;
                         notif_th := notif_th s |}))).
  { unfold hal_ipc_init, accept_connection, pthread_create.
    run_monad.
    init_tests; cbn [fst snd app]; reflexivity. }
  split; [exact Hrun|].
  rewrite Hrun.
  init_tests; cbn [fst snd app open_fds remove_fd]; reflexivity.
Qed.

(** * Further properties of hal_ipc_cmd *)

(** A record whose body is longer than the receive buffer is cut at the
    buffer's end. *)
Lemma recvmsg_model_cut (sid op l0 l1 : Z) (body : buffer)
    (anc : list cmsghdr) (iov1 : buffer) (cap : Z) (c : bool) :
  0 <= cap < Z.of_nat (length body) ->
  msg_ret (recvmsg_model (RecvData (sid :: op :: l0 :: l1 :: body) anc)
             (zeroed (Z.to_nat Msg.hdr_size)) iov1 cap c)
  = Msg.hdr_size + cap
  /\ msg_iov0 (recvmsg_model (RecvData (sid :: op :: l0 :: l1 :: body) anc)
                 (zeroed (Z.to_nat Msg.hdr_size)) iov1 cap c)
     = [sid; op; l0; l1].
Proof.
  intros Hcap.
  unfold recvmsg_model.
  change (zeroed (Z.to_nat Msg.hdr_size)) with [0; 0; 0; 0].
  change (length [0; 0; 0; 0]) with 4%nat.
  change (firstn 4 (sid :: op :: l0 :: l1 :: body)) with [sid; op; l0; l1].
  change (skipn 4 (sid :: op :: l0 :: l1 :: body)) with body.
  cbn [msg_ret msg_iov0]. split; [|reflexivity].
  rewrite length_firstn.
  change (length [sid; op; l0; l1]) with 4%nat.
  unfold Msg.hdr_size. lia.
Qed.

Lemma hal_ipc_cmd_sends (service_id opcode len : Z) (param : buffer)
    (rsp_len : option Z) (rsp : option buffer) (fd : option Z)
    (send : send_event) (reply : recv_event) (s : ipc_state) :
  0 <= cmd_sk s ->
  filter is_sendmsg
    (fst (hal_ipc_cmd service_id opcode len param rsp_len rsp fd send
            reply s))
  = [EvSendmsg (cmd_sk s)
       (Msg.hdr_bytes {| Msg.service_id := service_id;
                         Msg.opcode := opcode; Msg.len := len |}
        ++ firstn (Z.to_nat len) param)
       (sendmsg_model send
          (Msg.hdr_bytes {| Msg.service_id := service_id;
                            Msg.opcode := opcode; Msg.len := len |}
           ++ firstn (Z.to_nat len) param))].
Proof.
  intros Hsk. rewrite hal_ipc_cmd_run. unfold cmd_log.
  destruct (Z.ltb_spec (cmd_sk s) 0) as [|_]; [lia|].
  destruct send; cbn [send_failed]; [reflexivity|].
  split_branches; try reflexivity;
    destruct fd; try reflexivity;
    match goal with
    | |- context [msg_control ?m] => destruct (msg_control m)
    end; reflexivity.
Qed.

(** X6: the round trip.  A response with the opcode of the request whose
    declared length is that of its body, and whose body fits the caller's
    buffer, makes the call return [BT_STATUS_SUCCESS]; the body lies at the
    start of the caller's buffer, [*rsp_len] is the body length, and the
    statics are untouched. *)
Theorem hal_ipc_cmd_round_trip (service_id opcode len : Z) (param : buffer)
    (cap : Z) (buf : buffer) (sid l0 l1 : Z) (body : buffer)
    (anc : list cmsghdr) (s : ipc_state) :
  0 <= cmd_sk s ->
  opcode <> HAL_MSG_OP_ERROR ->
  Z.of_nat (length body) = l0 + 256 * l1 ->
  Z.of_nat (length body) <= cap ->
  hal_ipc_cmd service_id opcode len param (Some cap) (Some buf) None
    SendWhole (RecvData (sid :: opcode :: l0 :: l1 :: body) anc) s
  = (cmd_log s service_id opcode len param SendWhole
     ++ [EvRecvmsg (cmd_sk s) (Msg.hdr_size + Z.of_nat (length body));
         EvMutexUnlock],
     Returns ({| status := BT_STATUS_SUCCESS;
                 rsp_len_out := Some (Z.of_nat (length body));
                 rsp_out := Some (body ++ skipn (length body) buf);
                 fd_out := None |}, s)).
Proof.
  intros Hsk Hop Hlen Hcap.
  rewrite hal_ipc_cmd_run.
  rewrite recvmsg_model_whole by exact Hcap.
  cbn [msg_ret msg_iov0 msg_iov1 msg_control is_null negb send_failed].
  change (Msg.hdr_of_bytes [sid; opcode; l0; l1])
    with {| Msg.service_id := sid; Msg.opcode := opcode;
            Msg.len := l0 + 256 * l1 |}.
  cbn [Msg.opcode Msg.len].
  rewrite Hlen, !Z.eqb_refl.
  cbn [negb andb].
  destruct (Z.eqb_spec opcode HAL_MSG_OP_ERROR); [contradiction|].
  destruct (Z.ltb_spec (cmd_sk s) 0); [lia|].
  unfold Msg.hdr_size.
  destruct (Z.ltb_spec (4 + (l0 + 256 * l1)) 0); [lia|].
  destruct (Z.ltb_spec (4 + (l0 + 256 * l1)) 4); [lia|].
  reflexivity.
Qed.

(** X7: framing of the response.  A failed receive, fewer bytes than a
    header, or a byte count other than header size plus the declared length
    (one byte off included) ends the process; no status is returned. *)
Theorem hal_ipc_cmd_response_framing (service_id opcode len : Z)
    (param : buffer) (rsp_len : option Z) (rsp : option buffer)
    (fd : option Z) (send : send_event) (reply : recv_event) (s : ipc_state) :
  let m := recvmsg_model reply (zeroed (Z.to_nat Msg.hdr_size))
             (rsp_iov_base rsp_len rsp) (rsp_iov_len rsp_len rsp)
             (negb (is_null fd)) in
  msg_ret m < Msg.hdr_size
  \/ msg_ret m <> Msg.hdr_size + Msg.len (Msg.hdr_of_bytes (msg_iov0 m)) ->
  snd (hal_ipc_cmd service_id opcode len param rsp_len rsp fd send
         reply s) = Exits.
Proof.
  intros m Hbad. rewrite hal_ipc_cmd_run. fold m.
  destruct (cmd_sk s <? 0); [reflexivity|].
  destruct (send_failed send); [reflexivity|].
  destruct (Z.ltb_spec (msg_ret m) 0); [reflexivity|].
  destruct (Z.ltb_spec (msg_ret m) Msg.hdr_size); [reflexivity|].
  destruct (Z.eqb_spec (msg_ret m)
              (Msg.hdr_size + Msg.len (Msg.hdr_of_bytes (msg_iov0 m))));
    [|reflexivity].
  exfalso. destruct Hbad; [lia|contradiction].
Qed.

(** X8: a response too long for the receive buffer.  When the body of a
    response with a truthful header does not fit the buffer the call
    receives into (the caller's [*rsp_len] bytes, or the one-byte local
    [err] of a call without response buffer), the call ends the process:
    it neither writes past the buffer nor returns a cut response. *)
Theorem hal_ipc_cmd_oversized_response_exits (service_id opcode len : Z)
    (param : buffer) (rsp_len : option Z) (rsp : option buffer)
    (fd : option Z) (send : send_event) (sid op l0 l1 : Z) (body : buffer)
    (anc : list cmsghdr) (s : ipc_state) :
  Z.of_nat (length body) = l0 + 256 * l1 ->
  0 <= rsp_iov_len rsp_len rsp < Z.of_nat (length body) ->
  snd (hal_ipc_cmd service_id opcode len param rsp_len rsp fd send
         (RecvData (sid :: op :: l0 :: l1 :: body) anc) s) = Exits.
Proof.
  intros Hlen Hcap. rewrite hal_ipc_cmd_run.
  destruct (recvmsg_model_cut sid op l0 l1 body anc
              (rsp_iov_base rsp_len rsp) (rsp_iov_len rsp_len rsp)
              (negb (is_null fd)) Hcap) as [Hret Hhdr].
  rewrite Hret, Hhdr.
  change (Msg.len (Msg.hdr_of_bytes [sid; op; l0; l1])) with (l0 + 256 * l1).
  destruct (cmd_sk s <? 0); [reflexivity|].
  destruct (send_failed send); [reflexivity|].
  unfold Msg.hdr_size.
  destruct (Z.ltb_spec (4 + rsp_iov_len rsp_len rsp) 0); [reflexivity|].
  destruct (Z.ltb_spec (4 + rsp_iov_len rsp_len rsp) 4); [reflexivity|].
  destruct (Z.eqb_spec (4 + rsp_iov_len rsp_len rsp) (4 + (l0 + 256 * l1)));
    [lia|reflexivity].
Qed.

(** X9: a call without response buffer.  When [rsp] or [rsp_len] is null
    the call works on its own [err]: whatever it returns, the object behind
    the other pointer is as the caller left it, and so are the statics. *)
Theorem hal_ipc_cmd_no_buffer_frame (service_id opcode len : Z)
    (param : buffer) (rsp_len : option Z) (rsp : option buffer)
    (fd : option Z) (send : send_event) (reply : recv_event) (s s' : ipc_state)
    (r : cmd_result) :
  use_err rsp_len rsp = true ->
  snd (hal_ipc_cmd service_id opcode len param rsp_len rsp fd send
         reply s) = Returns (r, s') ->
  rsp_out r = rsp /\ rsp_len_out r = rsp_len /\ s' = s.
Proof.
  intros Herr. rewrite hal_ipc_cmd_run, Herr.
  split_branches; try discriminate;
    try (cbn [snd]; intros H; injection H as <- <-;
         repeat split; reflexivity).
  destruct fd; [destruct (msg_control _)|];
    try discriminate;
    cbn [snd]; intros H; injection H as <- <-; repeat split; reflexivity.
Qed.

(** X10: the mutex.  On an open command socket every run takes the mutex
    first and releases it once: [sendmsg], and [recvmsg] if it comes to it,
    lie between the two, and after the release the call only returns or
    exits.  No path returns or exits with the mutex held. *)
Theorem hal_ipc_cmd_mutex (service_id opcode len : Z) (param : buffer)
    (rsp_len : option Z) (rsp : option buffer) (fd : option Z)
    (send : send_event) (reply : recv_event) (s : ipc_state) :
  0 <= cmd_sk s ->
  exists mid tail,
    fst (hal_ipc_cmd service_id opcode len param rsp_len rsp fd send
           reply s)
    = EvMutexLock :: mid ++ EvMutexUnlock :: tail
    /\ forallb (fun e => is_sendmsg e || is_recvmsg e) mid = true
    /\ (tail = [] \/ tail = [EvExit]).
Proof.
  intros Hsk. rewrite hal_ipc_cmd_run. unfold cmd_log.
  set (snd_ev := EvSendmsg _ _ _).
  set (rcv_ev := EvRecvmsg _ _).
  destruct (Z.ltb_spec (cmd_sk s) 0) as [|_]; [lia|].
  destruct (send_failed send).
  { exists [snd_ev], [EvExit]. repeat split. now right. }
  assert (Hexit : exists mid tail,
             [EvMutexLock; snd_ev] ++ [rcv_ev; EvMutexUnlock] ++ [EvExit]
             = EvMutexLock :: mid ++ EvMutexUnlock :: tail
             /\ forallb (fun e => is_sendmsg e || is_recvmsg e) mid = true
             /\ (tail = [] \/ tail = [EvExit])).
  { exists [snd_ev; rcv_ev], [EvExit]. repeat split. now right. }
  assert (Hret : exists mid tail,
             [EvMutexLock; snd_ev] ++ [rcv_ev; EvMutexUnlock]
             = EvMutexLock :: mid ++ EvMutexUnlock :: tail
             /\ forallb (fun e => is_sendmsg e || is_recvmsg e) mid = true
             /\ (tail = [] \/ tail = [EvExit])).
  { exists [snd_ev; rcv_ev], []. repeat split. now left. }
  split_branches; cbn [fst]; rewrite <- ?app_assoc;
    try exact Hexit; try exact Hret.
  all: destruct fd; [destruct (msg_control _)|]; cbn [fst]; exact Hret.
Qed.

(** X11: the request on the wire.  With arguments in the range of their C
    types and [len] bytes behind [param], the one record handed to
    [sendmsg] is four header bytes and [len] payload bytes: its header
    reads back as the three arguments and its payload is the first [len]
    bytes of [param]. *)
Theorem hal_ipc_cmd_request_framing (service_id opcode len : Z)
    (param : buffer) (rsp_len : option Z) (rsp : option buffer)
    (fd : option Z) (send : send_event) (reply : recv_event) (s : ipc_state) :
  0 <= cmd_sk s ->
  0 <= service_id < 256 ->
  0 <= opcode < 256 ->
  0 <= len < 65536 ->
  len <= Z.of_nat (length param) ->
  exists data,
    filter is_sendmsg
      (fst (hal_ipc_cmd service_id opcode len param rsp_len rsp fd send
              reply s))
    = [EvSendmsg (cmd_sk s) data (sendmsg_model send data)]
    /\ Z.of_nat (length data) = Msg.hdr_size + len
    /\ Forall (fun b => 0 <= b < 256) (firstn 4 data)
    /\ Msg.hdr_of_bytes data
       = {| Msg.service_id := service_id; Msg.opcode := opcode;
            Msg.len := len |}
    /\ Msg.payload data = firstn (Z.to_nat len) param.
Proof.
  intros Hsk Hsvc Hop Hlen Hparam.
  eexists. split; [apply hal_ipc_cmd_sends; exact Hsk|].
  unfold Msg.hdr_bytes. cbn [Msg.service_id Msg.opcode Msg.len app].
  assert (Hdm : len mod 256 + 256 * (len / 256) = len).
  { rewrite Z.add_comm. symmetry. apply Z.div_mod. lia. }
  split; [|split; [|split]].
  - cbn [length]. rewrite length_firstn. unfold Msg.hdr_size. lia.
  - cbn [firstn]. repeat constructor; try lia.
    + apply Z.mod_pos_bound. lia.
    + apply Z.mod_pos_bound. lia.
    + apply Z.div_pos; lia.
    + apply Z.div_lt_upper_bound; lia.
  - unfold Msg.hdr_of_bytes. cbn [nth]. rewrite Hdm. reflexivity.
  - unfold Msg.payload, Msg.hdr_of_bytes. cbn [nth Msg.len skipn].
    rewrite Hdm. apply firstn_all2.
    rewrite length_firstn. lia.
Qed.

(** * Further properties of the notification thread *)

Lemma notification_dispatch_then (msg : buffer) (fd : Z) (k : M unit)
    (s : ipc_state) :
  (notification_dispatch msg fd ;; k) s
  = (dispatch_log msg ++ fst (k s), snd (k s)).
Proof.
  unfold bind, notification_dispatch, dispatch_log.
  destruct (Msg.service_id (Msg.hdr_of_bytes msg)
            =? HAL_SERVICE_ID_BLUETOOTH); reflexivity.
Qed.

Lemma well_framed_tests (m : msghdr) :
  well_framed m = true ->
  Msg.hdr_size <= msg_ret m
  /\ HAL_MSG_MINIMUM_EVENT <= Msg.opcode (Msg.hdr_of_bytes (msg_iov0 m))
  /\ msg_ret m = Msg.hdr_size + Msg.len (Msg.hdr_of_bytes (msg_iov0 m)).
Proof.
  unfold well_framed. intros H.
  apply andb_prop in H as [H H3]. apply andb_prop in H as [H1 H2].
  apply Z.leb_le in H1. apply Z.leb_le in H2. apply Z.eqb_eq in H3.
  repeat split; assumption.
Qed.

(** The loop's tests on a read that is framed well: only the
    auxiliary-data loop is left to decide. *)
Lemma notification_iter_well_framed (c : Z) (m : msghdr) :
  well_framed m = true ->
  notification_iter c (msg_ret m) (msg_iov0 m) (msg_control m)
  = match msg_control m with
    | [] => NullDeref
    | _ :: _ => Dispatch (msg_iov0 m) (-1)
    end.
Proof.
  intros H. apply well_framed_tests in H as [H1 [H2 H3]].
  unfold notification_iter, recv_aux, CMSG_FIRSTHDR.
  unfold Msg.hdr_size in *.
  destruct (Z.ltb_spec (msg_ret m) 0); [lia|].
  destruct (Z.eqb_spec (msg_ret m) 0); [lia|].
  destruct (Z.ltb_spec (msg_ret m) 4); [lia|].
  destruct (Z.ltb_spec (Msg.opcode (Msg.hdr_of_bytes (msg_iov0 m)))
              HAL_MSG_MINIMUM_EVENT); [lia|].
  destruct (Z.eqb_spec (msg_ret m)
              (4 + Msg.len (Msg.hdr_of_bytes (msg_iov0 m))));
    [|contradiction].
  cbn [negb]. destruct (msg_control m); reflexivity.
Qed.

Lemma notification_iter_fatal (c : Z) (ev : recv_event) :
  fatal_read ev = true ->
  notification_iter c (msg_ret (received ev)) (msg_iov0 (received ev))
    (msg_control (received ev)) = Fatal.
Proof.
  unfold fatal_read, well_framed, notification_iter.
  set (m := received ev).
  destruct (Z.ltb_spec (msg_ret m) 0); [reflexivity|].
  destruct (Z.eqb_spec (msg_ret m) 0); [discriminate|].
  cbn [orb negb andb].
  destruct (Z.ltb_spec (msg_ret m) Msg.hdr_size) as [Hlt|Hge];
    [reflexivity|].
  destruct (Z.leb_spec Msg.hdr_size (msg_ret m)) as [_|Hlt]; [|lia].
  destruct (Z.ltb_spec (Msg.opcode (Msg.hdr_of_bytes (msg_iov0 m)))
              HAL_MSG_MINIMUM_EVENT) as [Hop|Hop]; [reflexivity|].
  destruct (Z.leb_spec HAL_MSG_MINIMUM_EVENT
              (Msg.opcode (Msg.hdr_of_bytes (msg_iov0 m)))) as [_|Hop'];
    [|lia].
  cbn [andb].
  destruct (msg_ret m =? Msg.hdr_size
                         + Msg.len (Msg.hdr_of_bytes (msg_iov0 m)));
    [discriminate|reflexivity].
Qed.

Lemma handler_turn_dispatchable (ev : recv_event) (k : M unit)
    (s : ipc_state) :
  dispatchable ev = true ->
  handler_turn ev k s = (turn_log (notif_sk s) ev ++ fst (k s), snd (k s)).
Proof.
  unfold dispatchable. intros H. apply andb_prop in H as [Hwf Hctl].
  rewrite handler_turn_run. fold (received ev).
  rewrite (notification_iter_well_framed _ _ Hwf).
  destruct (msg_control (received ev)); [discriminate|].
  rewrite notification_dispatch_then. reflexivity.
Qed.

(** The loop over a run of dispatchable reads: their turns, then the loop
    on what follows, from the same statics. *)
Lemma notification_handler_prefix (q rest : list recv_event) (shut : bool)
    (s : ipc_state) :
  forallb dispatchable q = true ->
  notification_handler (q ++ rest) shut s
  = (flat_map (turn_log (notif_sk s)) q
     ++ fst (notification_handler rest shut s),
     snd (notification_handler rest shut s)).
Proof.
  induction q as [|ev q IH]; intros Hq.
  - cbn [app flat_map]. destruct (notification_handler rest shut s).
    reflexivity.
  - cbn [forallb] in Hq. apply andb_prop in Hq as [Hev Hq].
    cbn [app notification_handler flat_map].
    rewrite (handler_turn_dispatchable _ _ _ Hev), (IH Hq).
    cbn [fst snd]. rewrite app_assoc. reflexivity.
Qed.

(** X12: what reaches dispatch.  When a turn of the loop calls
    [notification_dispatch], the message is the receive buffer itself, it
    holds at least a header, its opcode is an event opcode, the byte count
    is header size plus declared length, a control message came with it,
    and the descriptor argument is -1. *)
Theorem notification_iter_dispatch_sound (c ret_ : Z) (buf : buffer)
    (control : list cmsghdr) (msg : buffer) (fd : Z) :
  notification_iter c ret_ buf control = Dispatch msg fd ->
  msg = buf /\ fd = -1
  /\ Msg.hdr_size <= ret_
  /\ HAL_MSG_MINIMUM_EVENT <= Msg.opcode (Msg.hdr_of_bytes buf)
  /\ ret_ = Msg.hdr_size + Msg.len (Msg.hdr_of_bytes buf)
  /\ control <> [].
Proof.
  unfold notification_iter, recv_aux, CMSG_FIRSTHDR.
  destruct (Z.ltb_spec ret_ 0); [discriminate|].
  destruct (Z.eqb_spec ret_ 0);
    [destruct (c =? -1); discriminate|].
  destruct (Z.ltb_spec ret_ Msg.hdr_size); [discriminate|].
  destruct (Z.ltb_spec (Msg.opcode (Msg.hdr_of_bytes buf))
              HAL_MSG_MINIMUM_EVENT); [discriminate|].
  destruct (Z.eqb_spec ret_ (Msg.hdr_size + Msg.len (Msg.hdr_of_bytes buf)));
    [|discriminate].
  cbn [negb]. destruct control as [|c0 control']; [discriminate|].
  intros Heq. injection Heq as <- <-.
  repeat split; try assumption. discriminate.
Qed.

(** X13: a notification without ancillary data.  A read that passes the
    three framing tests but brings no control message is not dispatched:
    the auxiliary-data loop starts on a null [cmsg] and the thread goes no
    further. *)
Theorem notification_without_control_undefined (data : buffer)
    (k : M unit) (s : ipc_state) :
  well_framed (received (RecvData data [])) = true ->
  handler_turn (RecvData data []) k s
  = ([EvRecvmsg (notif_sk s) (msg_ret (received (RecvData data [])))],
     Undefined).
Proof.
  intros Hwf. rewrite handler_turn_run. fold (received (RecvData data [])).
  rewrite (notification_iter_well_framed _ _ Hwf).
  reflexivity.
Qed.

(** X14: the loop in arrival order, to its end.  On a socket that holds
    dispatchable notifications and is then shut down, with the command
    socket torn down, the thread takes them one by one in queue order, each
    read followed by its dispatch, then reads 0, closes its socket, resets
    [notif_sk] and returns. *)
Theorem notification_handler_drains (q : list recv_event) (s : ipc_state) :
  forallb dispatchable q = true ->
  cmd_sk s = -1 ->
  notification_handler q true s
  = (flat_map (turn_log (notif_sk s)) q
     ++ [EvRecvmsg (notif_sk s) 0; EvClose (notif_sk s)],
     Returns (tt, {| cmd_sk := -1; notif_sk := -1;
                     notif_th := notif_th s |})).
Proof.
  intros Hq Hsk.
  rewrite <- (app_nil_r q) at 1.
  rewrite (notification_handler_prefix _ _ _ _ Hq).
  rewrite (notification_handler_stops _ Hsk). reflexivity.
Qed.

(** X15: the loop on an open socket.  With only dispatchable notifications
    queued and the socket not shut down, the thread dispatches them in
    queue order and then waits in [recvmsg]: it neither returns nor exits,
    whatever [cmd_sk] is. *)
Theorem notification_handler_waits (q : list recv_event) (s : ipc_state) :
  forallb dispatchable q = true ->
  notification_handler q false s
  = (flat_map (turn_log (notif_sk s)) q, Blocked).
Proof.
  intros Hq.
  rewrite <- (app_nil_r q) at 1.
  rewrite (notification_handler_prefix _ _ _ _ Hq).
  cbn [notification_handler blocked fst snd]. rewrite app_nil_r.
  reflexivity.
Qed.

(** X16: the first bad read ends everything.  After dispatchable
    notifications, a failed read or a non-empty read that fails a framing
    test ends the process on the spot: what is queued behind it is neither
    read nor dispatched. *)
Theorem notification_handler_stops_at_fatal (q1 q2 : list recv_event)
    (bad : recv_event) (shut : bool) (s : ipc_state) :
  forallb dispatchable q1 = true ->
  fatal_read bad = true ->
  notification_handler (q1 ++ bad :: q2) shut s
  = (flat_map (turn_log (notif_sk s)) q1
     ++ [EvRecvmsg (notif_sk s) (msg_ret (received bad)); EvExit],
     Exits).
Proof.
  intros Hq Hbad.
  rewrite (notification_handler_prefix _ _ _ _ Hq).
  cbn [notification_handler].
  rewrite handler_turn_run. fold (received bad).
  rewrite (notification_iter_fatal _ _ Hbad). reflexivity.
Qed.

(** A turn that lets the thread function return: either it is the turn
    that reads 0 with [cmd_sk] at -1, or the rest of the loop returned. *)
Lemma handler_turn_returns_inv (ev : recv_event) (k : M unit)
    (s s' : ipc_state) (l : list event) :
  (forall l2, k s = (l2, Returns (tt, s')) ->
     cmd_sk s = -1
     /\ s' = {| cmd_sk := -1; notif_sk := -1; notif_th := notif_th s |}
     /\ exists l0,
          l2 = l0 ++ [EvRecvmsg (notif_sk s) 0; EvClose (notif_sk s)]) ->
  handler_turn ev k s = (l, Returns (tt, s')) ->
  cmd_sk s = -1
  /\ s' = {| cmd_sk := -1; notif_sk := -1; notif_th := notif_th s |}
  /\ exists l0,
       l = l0 ++ [EvRecvmsg (notif_sk s) 0; EvClose (notif_sk s)].
Proof.
  intros Hk. rewrite handler_turn_run.
  fold (received ev). set (m := received ev).
  unfold notification_iter, recv_aux, CMSG_FIRSTHDR.
  destruct (Z.ltb_spec (msg_ret m) 0); [discriminate|].
  destruct (Z.eqb_spec (msg_ret m) 0) as [Hz|Hnz].
  - destruct (Z.eqb_spec (cmd_sk s) (-1)) as [Hsk|]; [|discriminate].
    intros Heq. injection Heq as <- <-.
    rewrite Hz, Hsk. split; [reflexivity|]. split; [reflexivity|].
    exists []. reflexivity.
  - destruct (msg_ret m <? Msg.hdr_size); [discriminate|].
    destruct (Msg.opcode (Msg.hdr_of_bytes (msg_iov0 m))
              <? HAL_MSG_MINIMUM_EVENT); [discriminate|].
    destruct (negb (msg_ret m =? Msg.hdr_size
                    + Msg.len (Msg.hdr_of_bytes (msg_iov0 m))));
      [discriminate|].
    destruct (msg_control m); [discriminate|].
    rewrite notification_dispatch_then.
    destruct (k s) as [l2 o] eqn:Hks. cbn [fst snd].
    intros Heq. injection Heq as Hl Ho. subst l o.
    destruct (Hk l2 eq_refl) as [Hsk [Hst [pre Hpre]]].
    split; [exact Hsk|]. split; [exact Hst|].
    exists (EvRecvmsg (notif_sk s) (msg_ret m)
            :: dispatch_log (msg_iov0 m) ++ pre).
    rewrite Hpre. cbn [app]. rewrite app_assoc. reflexivity.
Qed.

(** X17: the thread returns only through teardown.  Whatever the socket
    delivers, if the thread function returns then [cmd_sk] was -1, the log
    ends with a read of 0 and the close of the notification socket, and
    [notif_sk] is -1 with the other statics as they were. *)
Theorem notification_handler_returns_only_torn_down
    (q : list recv_event) (shut : bool) (s s' : ipc_state)
    (l : list event) :
  notification_handler q shut s = (l, Returns (tt, s')) ->
  cmd_sk s = -1
  /\ s' = {| cmd_sk := -1; notif_sk := -1; notif_th := notif_th s |}
  /\ exists l0,
       l = l0 ++ [EvRecvmsg (notif_sk s) 0; EvClose (notif_sk s)].
Proof.
  revert l. induction q as [|ev q IH]; intros l.
  - cbn [notification_handler]. destruct shut; [|discriminate].
    apply handler_turn_returns_inv. intros l2. discriminate.
  - cbn [notification_handler]. apply handler_turn_returns_inv. exact IH.
Qed.

(** * Further properties of hal_ipc_cleanup *)

(** X18: teardown drains the queue.  With dispatchable notifications still
    queued when teardown starts, the thread dispatches all of them in
    order after the shutdown and before it ends; teardown then returns with
    the statics at their sentinels. *)
Theorem hal_ipc_cleanup_drains (pending : list recv_event)
    (s : ipc_state) :
  forallb dispatchable pending = true ->
  hal_ipc_cleanup (InRecvmsg pending) s
  = ([EvClose (cmd_sk s); EvShutdownRd (notif_sk s)]
     ++ map EvNotifThread
          (flat_map (turn_log (notif_sk s)) pending
           ++ [EvRecvmsg (notif_sk s) 0; EvClose (notif_sk s)])
     ++ [EvPthreadJoin (notif_th s)],
     Returns (tt, {| cmd_sk := -1; notif_sk := -1; notif_th := 0 |})).
Proof.
  intros Hq.
  unfold hal_ipc_cleanup, in_notif_thread.
  run_monad. cbn [fst snd app].
  pose proof (notification_handler_prefix pending [] true
                {| cmd_sk := -1; notif_sk := notif_sk s;
                   notif_th := notif_th s |} Hq) as Hrun.
  rewrite app_nil_r in Hrun. rewrite Hrun.
  rewrite notification_handler_stops by reflexivity.
  reflexivity.
Qed.

(** X19: teardown with a bad notification queued.  When the queue holds a
    read that is fatal to the thread behind dispatchable ones, the process
    exits inside the thread: [pthread_join] does not come back and
    teardown does not return. *)
Theorem hal_ipc_cleanup_fatal_pending (q1 q2 : list recv_event)
    (bad : recv_event) (s : ipc_state) :
  forallb dispatchable q1 = true ->
  fatal_read bad = true ->
  hal_ipc_cleanup (InRecvmsg (q1 ++ bad :: q2)) s
  = ([EvClose (cmd_sk s); EvShutdownRd (notif_sk s)]
     ++ map EvNotifThread
          (flat_map (turn_log (notif_sk s)) q1
           ++ [EvRecvmsg (notif_sk s) (msg_ret (received bad)); EvExit]),
     Exits).
Proof.
  intros Hq Hbad.
  unfold hal_ipc_cleanup, in_notif_thread.
  run_monad. cbn [fst snd app].
  rewrite (notification_handler_prefix _ _ _ _ Hq).
  cbn [notification_handler].
  rewrite handler_turn_run. fold (received bad).
  rewrite (notification_iter_fatal _ _ Hbad). reflexivity.
Qed.

(** X20: teardown leaves the transport closed for commands.  Whenever
    [hal_ipc_cleanup] returns, [cmd_sk] is -1 and [notif_th] is 0, and a
    [hal_ipc_cmd] issued afterwards ends the process at once.  [notif_sk]
    is -1 only if the notification thread ran: it is the thread that closes
    and resets it.  With no thread behind [notif_th] teardown leaves
    [notif_sk] as it found it. *)
Theorem hal_ipc_cmd_after_cleanup (th : notif_thread)
    (s s' : ipc_state) (l : list event) (service_id opcode len : Z)
    (param : buffer) (rsp_len : option Z) (rsp : option buffer)
    (fd : option Z) (send : send_event) (reply : recv_event) :
  hal_ipc_cleanup th s = (l, Returns (tt, s')) ->
  s' = {| cmd_sk := -1;
          notif_sk := match th with
                      | NoThread => notif_sk s
                      | InRecvmsg _ => -1
                      end;
          notif_th := 0 |}
  /\ hal_ipc_cmd service_id opcode len param rsp_len rsp fd send reply
       s' = ([EvExit], Exits).
Proof.
  assert (Hinv : forall q s1 s2 l1,
            notification_handler q true s1 = (l1, Returns (tt, s2)) ->
            cmd_sk s1 = -1
            /\ s2 = {| cmd_sk := -1; notif_sk := -1;
                       notif_th := notif_th s1 |}
            /\ exists l0,
                 l1 = l0 ++ [EvRecvmsg (notif_sk s1) 0;
                             EvClose (notif_sk s1)]).
  { induction q as [|ev q IH]; intros s1 s2 l1;
      cbn [notification_handler]; apply handler_turn_returns_inv.
    - intros l2. discriminate.
    - intros l2. apply IH. }
  unfold hal_ipc_cleanup, in_notif_thread.
  destruct th as [|pending]; run_monad; cbn [fst snd app].
  - intros Heq. injection Heq as _ <-.
    split; [reflexivity|].
    rewrite hal_ipc_cmd_run. reflexivity.
  - destruct (notification_handler pending true
                {| cmd_sk := -1; notif_sk := notif_sk s;
                   notif_th := notif_th s |}) as [lh oh] eqn:Hh.
    destruct oh as [[[] s2]| | |]; cbn [fst snd]; try discriminate.
    intros Heq. injection Heq as _ <-.
    destruct (Hinv _ _ _ _ Hh) as [_ [-> _]].
    cbn [cmd_sk notif_sk notif_th].
    split; [reflexivity|].
    rewrite hal_ipc_cmd_run. reflexivity.
Qed.

(** * Further properties of the set-up *)

(** X1: [accept_connection].  It polls once and never retries; it calls
    [accept] only when the poll reports readiness; it returns either -1 or
    the non-negative descriptor [accept] handed out, which is then the one
    descriptor it leaves open. *)
Theorem accept_connection_result (sk poll_ret accept_ret : Z)
    (s : ipc_state) :
  exists r,
    snd (accept_connection sk poll_ret accept_ret s) = Returns (r, s)
    /\ (r = -1 \/ (r = accept_ret /\ 0 <= accept_ret /\ 0 < poll_ret))
    /\ open_fds (fst (accept_connection sk poll_ret accept_ret s)) []
       = (if r =? -1 then [] else [r])
    /\ fst (accept_connection sk poll_ret accept_ret s)
       = (if 0 <? poll_ret
          then [EvPoll sk poll_ret; EvAccept sk accept_ret]
          else [EvPoll sk poll_ret]).
Proof.
  unfold accept_connection. run_monad.
  destruct (Z.ltb_spec poll_ret 0) as [Hp|Hp].
  { exists (-1). cbn [fst snd app open_fds].
    destruct (Z.ltb_spec 0 poll_ret); [lia|].
    repeat split. now left. }
  destruct (Z.eqb_spec poll_ret 0) as [Hz|Hz].
  { exists (-1). cbn [fst snd app open_fds].
    destruct (Z.ltb_spec 0 poll_ret); [lia|].
    repeat split. now left. }
  destruct (Z.ltb_spec 0 poll_ret); [|lia].
  destruct (Z.ltb_spec accept_ret 0) as [Ha|Ha].
  - exists (-1). cbn [fst snd app open_fds].
    destruct (Z.ltb_spec accept_ret 0); [|lia].
    repeat split. now left.
  - exists accept_ret. cbn [fst snd app open_fds].
    destruct (Z.ltb_spec accept_ret 0); [lia|].
    destruct (Z.eqb_spec accept_ret (-1)); [lia|].
    repeat split. right. repeat split; lia.
Qed.

(** X2: a good set-up.  With every step granted and [pthread_create]
    answering 0, [hal_ipc_init] returns true: the first connection accepted
    is the command socket and the second the notification socket, the
    daemon is started before the first wait, the listening socket is closed
    before the thread is made, and the two accepted sockets are all that is
    left open. *)
Theorem hal_ipc_init_success (env : init_env) (s : ipc_state) :
  0 <= socket_ret env -> 0 <= bind_ret env -> 0 <= listen_ret env ->
  0 < poll1_ret env -> 0 <= accept1_ret env ->
  0 < poll2_ret env -> 0 <= accept2_ret env ->
  pthread_create_ret env = 0 ->
  hal_ipc_init env s
  = ([EvSocket (socket_ret env);
      EvBind (socket_ret env) (bind_ret env);
      EvListen (socket_ret env) (listen_ret env);
      EvPropertySet;
      EvPoll (socket_ret env) (poll1_ret env);
      EvAccept (socket_ret env) (accept1_ret env);
      EvPoll (socket_ret env) (poll2_ret env);
      EvAccept (socket_ret env) (accept2_ret env);
      EvClose (socket_ret env);
      EvPthreadCreate 0],
     Returns (true, {| cmd_sk := accept1_ret env;
                       notif_sk := accept2_ret env;
                       notif_th := pthread_id env |}))
  /\ open_fds (fst (hal_ipc_init env s)) []
     = [accept1_ret env; accept2_ret env].
Proof.
  intros Hs Hb Hl Hp1 Ha1 Hp2 Ha2 Hth.
  assert (Hrun : hal_ipc_init env s
    = ([EvSocket (socket_ret env);
        EvBind (socket_ret env) (bind_ret env);
        EvListen (socket_ret env) (listen_ret env);
        EvPropertySet;
        EvPoll (socket_ret env) (poll1_ret env);
        EvAccept (socket_ret env) (accept1_ret env);
        EvPoll (socket_ret env) (poll2_ret env);
        EvAccept (socket_ret env) (accept2_ret env);
        EvClose (socket_ret env);
        EvPthreadCreate 0],
       Returns (true, {| cmd_sk := accept1_ret env;
                         notif_sk := accept2_ret env;
                         notif_th := pthread_id env |}))).
  { unfold hal_ipc_init, accept_connection, pthread_create.
    rewrite Hth. run_monad.
    init_tests; cbn [fst snd app]; reflexivity. }
  split; [exact Hrun|].
  rewrite Hrun.
  init_tests; cbn [fst snd app open_fds remove_fd]; reflexivity.
Qed.

(** X4: set-up errors are never fatal, and what true means.
    [hal_ipc_init] always returns to its caller; it returns true exactly
    when no step up to the second accept failed and [pthread_create] did
    not answer a negative value, and then both sockets it recorded are the
    accepted, non-negative descriptors. *)
Theorem hal_ipc_init_returns (env : init_env) (s : ipc_state) :
  exists b s',
    snd (hal_ipc_init env s) = Returns (b, s')
    /\ (b = true <-> ~ init_step_fails env)
    /\ (b = true ->
        cmd_sk s' = accept1_ret env /\ notif_sk s' = accept2_ret env
        /\ 0 <= cmd_sk s' /\ 0 <= notif_sk s').
Proof.
  unfold init_step_fails, hal_ipc_init, accept_connection, pthread_create.
  run_monad.
  init_tests; cbn [fst snd app];
    eexists; eexists; (split; [reflexivity|]);
    (split; [split; [intros Hb; try discriminate; lia
                    |intros Hok; try reflexivity; exfalso; lia]
            |intros Hb; try discriminate;
             cbn [cmd_sk notif_sk]; repeat split; lia]).
Qed.

(** X5: a whole life of the transport.  A good set-up followed by a
    teardown with nothing queued returns the three statics to their initial
    values, and over the events of both threads every descriptor that
    [socket] and [accept] handed out has been closed. *)
Theorem hal_ipc_lifecycle (env : init_env) :
  0 <= socket_ret env -> 0 <= bind_ret env -> 0 <= listen_ret env ->
  0 < poll1_ret env -> 0 <= accept1_ret env ->
  0 < poll2_ret env -> 0 <= accept2_ret env ->
  pthread_create_ret env = 0 ->
  snd ((hal_ipc_init env ;; hal_ipc_cleanup (InRecvmsg [])) initial_state)
  = Returns (tt, initial_state)
  /\ open_fds
       (flatten_threads
          (fst ((hal_ipc_init env ;; hal_ipc_cleanup (InRecvmsg [])) initial_state))) []
     = [].
Proof.
  intros Hs Hb Hl Hp1 Ha1 Hp2 Ha2 Hth.
  assert (Hinit : hal_ipc_init env initial_state
    = ([EvSocket (socket_ret env);
        EvBind (socket_ret env) (bind_ret env);
        EvListen (socket_ret env) (listen_ret env);
        EvPropertySet;
        EvPoll (socket_ret env) (poll1_ret env);
        EvAccept (socket_ret env) (accept1_ret env);
        EvPoll (socket_ret env) (poll2_ret env);
        EvAccept (socket_ret env) (accept2_ret env);
        EvClose (socket_ret env);
        EvPthreadCreate 0],
       Returns (true, {| cmd_sk := accept1_ret env;
                         notif_sk := accept2_ret env;
                         notif_th := pthread_id env |}))).
  { unfold hal_ipc_init, accept_connection, pthread_create.
    rewrite Hth. run_monad.
    init_tests; cbn [fst snd app]; reflexivity. }
  assert (Hclean : forall s1, hal_ipc_cleanup (InRecvmsg []) s1
    = ([EvClose (cmd_sk s1);
        EvShutdownRd (notif_sk s1);
        EvNotifThread (EvRecvmsg (notif_sk s1) 0);
        EvNotifThread (EvClose (notif_sk s1));
        EvPthreadJoin (notif_th s1)],
       Returns (tt, initial_state))).
  { intros s1. unfold hal_ipc_cleanup, in_notif_thread.
    run_monad. cbn [fst snd app].
    rewrite notification_handler_stops by reflexivity.
    reflexivity. }
  unfold bind at 1. unfold bind at 1.
  rewrite Hinit, Hclean.
  cbn [fst snd app cmd_sk notif_sk notif_th flatten_threads].
  split; [reflexivity|].
  init_tests; cbn [fst snd app open_fds remove_fd]; reflexivity.
Qed.

(** X21: teardown after the thread was not made.  When every step of the
    set-up is granted but [pthread_create] answers a positive error number,
    [hal_ipc_init] returns true with no thread; the teardown that follows
    closes the command socket and joins nothing, so nobody closes the
    notification socket: [notif_sk] keeps its descriptor, which stays
    open. *)
Theorem hal_ipc_lifecycle_no_thread (env : init_env) :
  0 <= socket_ret env -> 0 <= bind_ret env -> 0 <= listen_ret env ->
  0 < poll1_ret env -> 0 <= accept1_ret env ->
  0 < poll2_ret env -> 0 <= accept2_ret env ->
  0 < pthread_create_ret env ->
  snd ((hal_ipc_init env ;; hal_ipc_cleanup NoThread) initial_state)
  = Returns (tt, {| cmd_sk := -1; notif_sk := accept2_ret env;
                    notif_th := 0 |})
  /\ open_fds
       (flatten_threads
          (fst ((hal_ipc_init env ;; hal_ipc_cleanup NoThread)
                  initial_state))) []
     = [accept2_ret env].
Proof.
  intros Hs Hb Hl Hp1 Ha1 Hp2 Ha2 Hth.
  assert (Hinit : hal_ipc_init env initial_state
    = ([EvSocket (socket_ret env);
        EvBind (socket_ret env) (bind_ret env);
        EvListen (socket_ret env) (listen_ret env);
        EvPropertySet;
        EvPoll (socket_ret env) (poll1_ret env);
        EvAccept (socket_ret env) (accept1_ret env);
        EvPoll (socket_ret env) (poll2_ret env);
        EvAccept (socket_ret env) (accept2_ret env);
        EvClose (socket_ret env);
        EvPthreadCreate (pthread_create_ret env)],
       Returns (true, {| cmd_sk := accept1_ret env;
                         notif_sk := accept2_ret env;
                         notif_th := 0 |}))).
  { unfold hal_ipc_init, accept_connection, pthread_create.
    run_monad.
    init_tests; cbn [fst snd app]; reflexivity. }
  assert (Hclean : forall s1, hal_ipc_cleanup NoThread s1
    = ([EvClose (cmd_sk s1); EvShutdownRd (notif_sk s1);
        EvPthreadJoin (notif_th s1)],
       Returns (tt, {| cmd_sk := -1; notif_sk := notif_sk s1;
                       notif_th := 0 |}))).
  { intros s1. unfold hal_ipc_cleanup. run_monad. reflexivity. }
  unfold bind at 1. unfold bind at 1.
  rewrite Hinit, Hclean.
  cbn [fst snd app cmd_sk notif_sk notif_th flatten_threads].
  split; [reflexivity|].
  init_tests; cbn [fst snd app open_fds remove_fd]; reflexivity.
Qed.

End HalIpc.

(** * The theorems at sample inputs *)

Local Abbreviation cmd :=
  (hal_ipc_cmd Bluez.HAL_MSG_OP_ERROR Bluez.BT_STATUS_SUCCESS).
Local Abbreviation turn :=
  (handler_turn Bluez.HAL_MSG_MINIMUM_EVENT Bluez.HAL_SERVICE_ID_BLUETOOTH
     Bluez.BLUEZ_HAL_MTU).

(** C9 before initialisation. *)
Lemma hal_ipc_cmd_closed_socket_exits_witness :
  cmd_sk initial_state < 0
  /\ cmd 1 5 2 [170; 187] None None None SendWhole
       (RecvData [1; 5; 0; 0] []) initial_state
     = ([EvExit], Exits).
Proof.
  split; [reflexivity|].
  apply (hal_ipc_cmd_closed_socket_exits Bluez.HAL_MSG_OP_ERROR
           Bluez.BT_STATUS_SUCCESS 1 5 2 [170; 187] None None None
           SendWhole (RecvData [1; 5; 0; 0] []) initial_state).
  reflexivity.
Defined.

(** C1 at a response that carries descriptor 7: the slot reads -1. *)
Lemma hal_ipc_cmd_passed_fd_dropped_witness :
  (exists r,
     snd (cmd 1 5 2 [170; 187] (Some 8) (Some (zeroed 8)) (Some 42)
            SendWhole (RecvData [1; 5; 0; 0] [Sample.passed_fd])
            Sample.live)
     = Returns (r, Sample.live)
     /\ status r = Bluez.BT_STATUS_SUCCESS
     /\ fd_out r = Some (-1))
  /\ snd (cmd 1 5 2 [170; 187] (Some 8) (Some (zeroed 8)) (Some 42)
            SendWhole (RecvData [1; 5; 0; 0] []) Sample.live)
     = Undefined.
Proof.
  apply (hal_ipc_cmd_passed_fd_dropped Bluez.HAL_MSG_OP_ERROR
           Bluez.BT_STATUS_SUCCESS 1 5 2 [170; 187] (Some 8)
           (Some (zeroed 8)) 42 1 0 0 [] Sample.passed_fd Sample.live).
  - vm_compute; discriminate.
  - vm_compute; discriminate.
  - reflexivity.
  - vm_compute; discriminate.
Defined.

(** C2 with [pthread_create] answering EAGAIN. *)
Lemma hal_ipc_init_pthread_error_missed_witness :
  hal_ipc_init Sample.env_no_thread initial_state
  = ([EvSocket 3; EvBind 3 0; EvListen 3 0; EvPropertySet;
      EvPoll 3 1; EvAccept 3 4; EvPoll 3 1; EvAccept 3 5;
      EvClose 3; EvPthreadCreate 11],
     Returns (true, {| cmd_sk := 4; notif_sk := 5; notif_th := 0 |}))
  /\ open_fds (fst (hal_ipc_init Sample.env_no_thread initial_state)) []
     = [4; 5].
Proof.
  apply (hal_ipc_init_pthread_error_missed Sample.env_no_thread
           initial_state);
    vm_compute; (reflexivity || discriminate).
Defined.

(** C3 as claimed fails: the caller's buffer [170; 187] comes back as
    [7; 187] from a call that returns the status 7 of an error response. *)
Lemma hal_ipc_cmd_error_rsp_overwrites_buffer :
  exists r,
    snd (cmd 1 5 0 [] (Some 2) (Some [170; 187]) None SendWhole
           (RecvData [1; Bluez.HAL_MSG_OP_ERROR; 1; 0; 7] []) Sample.live)
    = Returns (r, Sample.live)
    /\ status r = 7
    /\ rsp_out r = Some [7; 187]
    /\ rsp_out r <> Some [170; 187].
Proof.
  eexists. split; [vm_compute; reflexivity|].
  split; [reflexivity|]. split; [reflexivity|]. discriminate.
Defined.

Lemma hal_ipc_cmd_error_rsp_witness :
  cmd 1 5 0 [] (Some 2) (Some [170; 187]) (Some 42) SendWhole
    (RecvData [1; Bluez.HAL_MSG_OP_ERROR; 1; 0; 7] []) Sample.live
  = ([EvMutexLock; EvSendmsg 3 [1; 5; 0; 0] 4; EvRecvmsg 3 5;
      EvMutexUnlock],
     Returns ({| status := 7; rsp_len_out := Some 2;
                 rsp_out := Some [7; 187]; fd_out := Some 42 |},
              Sample.live)).
Proof.
  apply (hal_ipc_cmd_error_rsp Bluez.HAL_MSG_OP_ERROR
           Bluez.BT_STATUS_SUCCESS 1 5 0 [] 2 [170; 187] (Some 42) 1 7 []
           Sample.live);
    vm_compute; discriminate.
Defined.


(** C5: opcode 6 in answer to 5 ends the process; the run that returns
    carried opcode 5. *)
Lemma hal_ipc_cmd_opcode_check_witness :
  snd (cmd 1 5 2 [170; 187] None None None SendWhole
         (RecvData [1; 6; 0; 0] []) Sample.live) = Exits
  /\ (5 = 5 \/ 5 = Bluez.HAL_MSG_OP_ERROR).
Proof.
  split.
  - apply (proj1 (hal_ipc_cmd_opcode_check Bluez.HAL_MSG_OP_ERROR
                    Bluez.BT_STATUS_SUCCESS 1 5 2 [170; 187] None None None
                    SendWhole [1; 6; 0; 0] [] Sample.live));
      vm_compute; discriminate.
  - apply (proj2 (hal_ipc_cmd_opcode_check Bluez.HAL_MSG_OP_ERROR
                    Bluez.BT_STATUS_SUCCESS 1 5 2 [170; 187] None None None
                    SendWhole [1; 5; 0; 0] [] Sample.live)
             {| status := 0; rsp_len_out := None; rsp_out := None;
                fd_out := None |} Sample.live).
    reflexivity.
Defined.

(** C10: the slot still reads 42 after an error response. *)
Lemma hal_ipc_cmd_error_rsp_keeps_fd_witness :
  exists r,
    snd (cmd 1 5 0 [] None None (Some 42) SendWhole
           (RecvData [1; Bluez.HAL_MSG_OP_ERROR; 1; 0; 7] []) Sample.live)
    = Returns (r, Sample.live)
    /\ status r = 7
    /\ fd_out r = Some 42.
Proof.
  apply (proj2 (hal_ipc_cmd_error_rsp_keeps_fd Bluez.HAL_MSG_OP_ERROR
                  Bluez.BT_STATUS_SUCCESS 1 5 0 [] None None 42 SendWhole
                  Sample.live) 1 7 []);
    try reflexivity; vm_compute; discriminate.
Defined.

(** C6: the read of 0 after teardown, with the command socket live, and a
    failed read. *)
Lemma notification_zero_read_witness :
  turn (RecvData [] []) blocked
    {| cmd_sk := -1; notif_sk := 4; notif_th := 9 |}
  = ([EvRecvmsg 4 0; EvClose 4],
     Returns (tt, {| cmd_sk := -1; notif_sk := -1; notif_th := 9 |}))
  /\ turn (RecvData [] []) blocked Sample.live
     = ([EvRecvmsg 4 0; EvExit], Exits)
  /\ turn RecvFail blocked Sample.live
     = ([EvRecvmsg 4 (-1); EvExit], Exits).
Proof.
  split; [|split].
  - apply (proj1 (notification_zero_read Bluez.HAL_MSG_MINIMUM_EVENT
                    Bluez.HAL_SERVICE_ID_BLUETOOTH Bluez.BLUEZ_HAL_MTU
                    (RecvData [] []) blocked
                    {| cmd_sk := -1; notif_sk := 4; notif_th := 9 |}));
      reflexivity.
  - apply (proj1 (notification_zero_read Bluez.HAL_MSG_MINIMUM_EVENT
                    Bluez.HAL_SERVICE_ID_BLUETOOTH Bluez.BLUEZ_HAL_MTU
                    (RecvData [] []) blocked Sample.live));
      [reflexivity | vm_compute; discriminate].
  - apply (proj2 (notification_zero_read Bluez.HAL_MSG_MINIMUM_EVENT
                    Bluez.HAL_SERVICE_ID_BLUETOOTH Bluez.BLUEZ_HAL_MTU
                    RecvFail blocked Sample.live)).
    reflexivity.
Defined.

(** C7: a notification with opcode 5, below the first event opcode. *)
Lemma notification_framing_violation_fatal_witness :
  turn (RecvData [1; 5; 0; 0] []) blocked Sample.live
  = ([EvRecvmsg 4 4; EvExit], Exits).
Proof.
  apply (proj2 (notification_framing_violation_fatal
                  Bluez.HAL_MSG_MINIMUM_EVENT Bluez.HAL_SERVICE_ID_BLUETOOTH
                  Bluez.BLUEZ_HAL_MTU (RecvData [1; 5; 0; 0] []) blocked
                  Sample.live
                  (or_intror (or_introl eq_refl)))).
  vm_compute; discriminate.
Defined.

(** * The further properties at sample inputs *)

Local Abbreviation handler :=
  (notification_handler Bluez.HAL_MSG_MINIMUM_EVENT
     Bluez.HAL_SERVICE_ID_BLUETOOTH Bluez.BLUEZ_HAL_MTU).
Local Abbreviation cleanup :=
  (hal_ipc_cleanup Bluez.HAL_MSG_MINIMUM_EVENT
     Bluez.HAL_SERVICE_ID_BLUETOOTH Bluez.BLUEZ_HAL_MTU).

(** The scenario of the specification: payload [0xAA; 0xBB], the peer
    answers with the same opcode and an empty body. *)
Lemma hal_ipc_cmd_round_trip_witness :
  cmd 1 5 2 [170; 187] (Some 8) (Some (zeroed 8)) None SendWhole
    (RecvData [1; 5; 0; 0] []) Sample.live
  = ([EvMutexLock; EvSendmsg 3 [1; 5; 2; 0; 170; 187] 6; EvRecvmsg 3 4;
      EvMutexUnlock],
     Returns ({| status := Bluez.BT_STATUS_SUCCESS; rsp_len_out := Some 0;
                 rsp_out := Some (zeroed 8); fd_out := None |},
              Sample.live)).
Proof.
  apply (hal_ipc_cmd_round_trip Bluez.HAL_MSG_OP_ERROR
           Bluez.BT_STATUS_SUCCESS 1 5 2 [170; 187] 8 (zeroed 8) 1 0 0 []
           [] Sample.live);
    vm_compute; (reflexivity || discriminate).
Defined.

(** A header that declares two bytes in front of a one-byte body. *)
Lemma hal_ipc_cmd_response_framing_witness :
  snd (cmd 1 5 0 [] (Some 8) (Some (zeroed 8)) None SendWhole
         (RecvData [1; 5; 2; 0; 7] []) Sample.live) = Exits.
Proof.
  apply (hal_ipc_cmd_response_framing Bluez.HAL_MSG_OP_ERROR
           Bluez.BT_STATUS_SUCCESS 1 5 0 [] (Some 8) (Some (zeroed 8)) None
           SendWhole (RecvData [1; 5; 2; 0; 7] []) Sample.live).
  right. vm_compute. discriminate.
Defined.

(** Two body bytes in answer to a call that passed no response buffer. *)
Lemma hal_ipc_cmd_oversized_response_exits_witness :
  snd (cmd 1 5 0 [] None None None SendWhole
         (RecvData [1; 5; 2; 0; 7; 8] []) Sample.live) = Exits.
Proof.
  apply (hal_ipc_cmd_oversized_response_exits Bluez.HAL_MSG_OP_ERROR
           Bluez.BT_STATUS_SUCCESS 1 5 0 [] None None None SendWhole 1 5 2 0
           [7; 8] [] Sample.live).
  - reflexivity.
  - vm_compute. split; [discriminate | reflexivity].
Defined.

(** A buffer without a length: the buffer keeps its bytes. *)
Lemma hal_ipc_cmd_no_buffer_frame_witness :
  rsp_out {| status := 0; rsp_len_out := None; rsp_out := Some [9; 9];
             fd_out := None |} = Some [9; 9]
  /\ rsp_len_out {| status := 0; rsp_len_out := None;
                    rsp_out := Some [9; 9]; fd_out := None |} = None
  /\ Sample.live = Sample.live.
Proof.
  apply (hal_ipc_cmd_no_buffer_frame Bluez.HAL_MSG_OP_ERROR
           Bluez.BT_STATUS_SUCCESS 1 5 0 [] None (Some [9; 9]) None
           SendWhole (RecvData [1; 5; 1; 0; 7] []) Sample.live Sample.live
           {| status := 0; rsp_len_out := None; rsp_out := Some [9; 9];
              fd_out := None |});
    reflexivity.
Defined.

Lemma hal_ipc_cmd_mutex_witness :
  exists mid tail,
    fst (cmd 1 5 2 [170; 187] None None None SendWhole RecvFail
           Sample.live)
    = EvMutexLock :: mid ++ EvMutexUnlock :: tail
    /\ forallb (fun e => is_sendmsg e || is_recvmsg e) mid = true
    /\ (tail = [] \/ tail = [EvExit]).
Proof.
  apply (hal_ipc_cmd_mutex Bluez.HAL_MSG_OP_ERROR Bluez.BT_STATUS_SUCCESS
           1 5 2 [170; 187] None None None SendWhole RecvFail Sample.live).
  vm_compute. discriminate.
Defined.

Lemma hal_ipc_cmd_request_framing_witness :
  exists data,
    filter is_sendmsg
      (fst (cmd 1 5 2 [170; 187; 204] None None None SendWhole
              (RecvData [1; 5; 0; 0] []) Sample.live))
    = [EvSendmsg 3 data (sendmsg_model SendWhole data)]
    /\ Z.of_nat (length data) = Msg.hdr_size + 2
    /\ Forall (fun b => 0 <= b < 256) (firstn 4 data)
    /\ Msg.hdr_of_bytes data
       = {| Msg.service_id := 1; Msg.opcode := 5; Msg.len := 2 |}
    /\ Msg.payload data = [170; 187].
Proof.
  apply (hal_ipc_cmd_request_framing Bluez.HAL_MSG_OP_ERROR
           Bluez.BT_STATUS_SUCCESS 1 5 2 [170; 187; 204] None None None
           SendWhole (RecvData [1; 5; 0; 0] []) Sample.live);
    cbn; lia.
Defined.

Lemma notification_iter_dispatch_sound_witness :
  [1; 129; 1; 0; 7] = [1; 129; 1; 0; 7] /\ -1 = -1
  /\ Msg.hdr_size <= 5
  /\ Bluez.HAL_MSG_MINIMUM_EVENT
     <= Msg.opcode (Msg.hdr_of_bytes [1; 129; 1; 0; 7])
  /\ 5 = Msg.hdr_size + Msg.len (Msg.hdr_of_bytes [1; 129; 1; 0; 7])
  /\ [Sample.passed_fd] <> [].
Proof.
  apply (notification_iter_dispatch_sound Bluez.HAL_MSG_MINIMUM_EVENT 3 5
           [1; 129; 1; 0; 7] [Sample.passed_fd] [1; 129; 1; 0; 7] (-1)).
  reflexivity.
Defined.

(** The same notification as [Sample.notif_bt], with nothing attached. *)
Lemma notification_without_control_undefined_witness :
  turn (RecvData [1; 129; 1; 0; 7] []) blocked Sample.live
  = ([EvRecvmsg 4 5], Undefined).
Proof.
  apply (notification_without_control_undefined
           Bluez.HAL_MSG_MINIMUM_EVENT Bluez.HAL_SERVICE_ID_BLUETOOTH
           Bluez.BLUEZ_HAL_MTU [1; 129; 1; 0; 7] blocked Sample.live).
  vm_compute. reflexivity.
Defined.

Lemma notification_handler_drains_witness :
  handler [Sample.notif_bt; Sample.notif_other] true Sample.torn
  = ([EvRecvmsg 4 5; EvBtNotifyAdapter 129 [7] 1; EvRecvmsg 4 4;
      EvRecvmsg 4 0; EvClose 4],
     Returns (tt, {| cmd_sk := -1; notif_sk := -1; notif_th := 9 |})).
Proof.
  apply (notification_handler_drains Bluez.HAL_MSG_MINIMUM_EVENT
           Bluez.HAL_SERVICE_ID_BLUETOOTH Bluez.BLUEZ_HAL_MTU
           [Sample.notif_bt; Sample.notif_other] Sample.torn);
    vm_compute; reflexivity.
Defined.

Lemma notification_handler_waits_witness :
  handler [Sample.notif_bt; Sample.notif_other] false Sample.live
  = ([EvRecvmsg 4 5; EvBtNotifyAdapter 129 [7] 1; EvRecvmsg 4 4], Blocked).
Proof.
  apply (notification_handler_waits Bluez.HAL_MSG_MINIMUM_EVENT
           Bluez.HAL_SERVICE_ID_BLUETOOTH Bluez.BLUEZ_HAL_MTU
           [Sample.notif_bt; Sample.notif_other] Sample.live).
  vm_compute. reflexivity.
Defined.

(** The scenario of the specification: a declared length the body does not
    reach; the notification queued behind it is not looked at. *)
Lemma notification_handler_stops_at_fatal_witness :
  handler [Sample.notif_bt; Sample.notif_short; Sample.notif_other] false
    Sample.live
  = ([EvRecvmsg 4 5; EvBtNotifyAdapter 129 [7] 1; EvRecvmsg 4 5; EvExit],
     Exits).
Proof.
  apply (notification_handler_stops_at_fatal Bluez.HAL_MSG_MINIMUM_EVENT
           Bluez.HAL_SERVICE_ID_BLUETOOTH Bluez.BLUEZ_HAL_MTU
           [Sample.notif_bt] [Sample.notif_other] Sample.notif_short false
           Sample.live);
    vm_compute; reflexivity.
Defined.

Lemma notification_handler_returns_only_torn_down_witness :
  cmd_sk Sample.torn = -1
  /\ {| cmd_sk := -1; notif_sk := -1; notif_th := 9 |}
     = {| cmd_sk := -1; notif_sk := -1; notif_th := notif_th Sample.torn |}
  /\ exists l0,
       [EvRecvmsg 4 5; EvBtNotifyAdapter 129 [7] 1; EvRecvmsg 4 0;
        EvClose 4]
       = l0 ++ [EvRecvmsg (notif_sk Sample.torn) 0;
                EvClose (notif_sk Sample.torn)].
Proof.
  apply (notification_handler_returns_only_torn_down
           Bluez.HAL_MSG_MINIMUM_EVENT Bluez.HAL_SERVICE_ID_BLUETOOTH
           Bluez.BLUEZ_HAL_MTU [Sample.notif_bt] true Sample.torn
           {| cmd_sk := -1; notif_sk := -1; notif_th := 9 |}
           [EvRecvmsg 4 5; EvBtNotifyAdapter 129 [7] 1; EvRecvmsg 4 0;
            EvClose 4]).
  vm_compute. reflexivity.
Defined.

Lemma hal_ipc_cleanup_drains_witness :
  cleanup (InRecvmsg [Sample.notif_bt]) Sample.live
  = ([EvClose 3; EvShutdownRd 4;
      EvNotifThread (EvRecvmsg 4 5);
      EvNotifThread (EvBtNotifyAdapter 129 [7] 1);
      EvNotifThread (EvRecvmsg 4 0);
      EvNotifThread (EvClose 4);
      EvPthreadJoin 9],
     Returns (tt, initial_state)).
Proof.
  apply (hal_ipc_cleanup_drains Bluez.HAL_MSG_MINIMUM_EVENT
           Bluez.HAL_SERVICE_ID_BLUETOOTH Bluez.BLUEZ_HAL_MTU
           [Sample.notif_bt] Sample.live).
  vm_compute. reflexivity.
Defined.

Lemma hal_ipc_cleanup_fatal_pending_witness :
  cleanup (InRecvmsg [Sample.notif_short; Sample.notif_bt]) Sample.live
  = ([EvClose 3; EvShutdownRd 4;
      EvNotifThread (EvRecvmsg 4 5);
      EvNotifThread EvExit],
     Exits).
Proof.
  apply (hal_ipc_cleanup_fatal_pending Bluez.HAL_MSG_MINIMUM_EVENT
           Bluez.HAL_SERVICE_ID_BLUETOOTH Bluez.BLUEZ_HAL_MTU
           [] [Sample.notif_bt] Sample.notif_short Sample.live);
    vm_compute; reflexivity.
Defined.

(** Teardown of the state [hal_ipc_init] leaves when it returned true with
    no thread made: [notif_sk] stays 5; and teardown with the thread on. *)
Lemma hal_ipc_cmd_after_cleanup_witness :
  ({| cmd_sk := -1; notif_sk := 5; notif_th := 0 |}
   = {| cmd_sk := -1; notif_sk := 5; notif_th := 0 |}
   /\ cmd 1 5 2 [170; 187] None None None SendWhole
        (RecvData [1; 5; 0; 0] [])
        {| cmd_sk := -1; notif_sk := 5; notif_th := 0 |}
      = ([EvExit], Exits))
  /\ (initial_state = {| cmd_sk := -1; notif_sk := -1; notif_th := 0 |}
      /\ cmd 1 5 2 [170; 187] None None None SendWhole
           (RecvData [1; 5; 0; 0] []) initial_state
         = ([EvExit], Exits)).
Proof.
  split.
  - apply (hal_ipc_cmd_after_cleanup Bluez.HAL_MSG_OP_ERROR
             Bluez.HAL_MSG_MINIMUM_EVENT Bluez.HAL_SERVICE_ID_BLUETOOTH
             Bluez.BT_STATUS_SUCCESS Bluez.BLUEZ_HAL_MTU
             NoThread {| cmd_sk := 4; notif_sk := 5; notif_th := 0 |}
             {| cmd_sk := -1; notif_sk := 5; notif_th := 0 |}
             [EvClose 4; EvShutdownRd 5; EvPthreadJoin 0]
             1 5 2 [170; 187] None None None SendWhole
             (RecvData [1; 5; 0; 0] [])).
    reflexivity.
  - apply (hal_ipc_cmd_after_cleanup Bluez.HAL_MSG_OP_ERROR
             Bluez.HAL_MSG_MINIMUM_EVENT Bluez.HAL_SERVICE_ID_BLUETOOTH
             Bluez.BT_STATUS_SUCCESS Bluez.BLUEZ_HAL_MTU
             (InRecvmsg [Sample.notif_bt]) Sample.live initial_state
             [EvClose 3; EvShutdownRd 4;
              EvNotifThread (EvRecvmsg 4 5);
              EvNotifThread (EvBtNotifyAdapter 129 [7] 1);
              EvNotifThread (EvRecvmsg 4 0);
              EvNotifThread (EvClose 4);
              EvPthreadJoin 9]
             1 5 2 [170; 187] None None None SendWhole
             (RecvData [1; 5; 0; 0] [])).
    vm_compute. reflexivity.
Defined.

Lemma hal_ipc_init_success_witness :
  hal_ipc_init Sample.env_good initial_state
  = ([EvSocket 3; EvBind 3 0; EvListen 3 0; EvPropertySet;
      EvPoll 3 1; EvAccept 3 4; EvPoll 3 1; EvAccept 3 5;
      EvClose 3; EvPthreadCreate 0],
     Returns (true, {| cmd_sk := 4; notif_sk := 5; notif_th := 9 |}))
  /\ open_fds (fst (hal_ipc_init Sample.env_good initial_state)) []
     = [4; 5].
Proof.
  apply (hal_ipc_init_success Sample.env_good initial_state);
    vm_compute; (reflexivity || discriminate).
Defined.

(** The second connection does not come within the timeout. *)
Lemma hal_ipc_init_failure_releases_witness :
  snd (hal_ipc_init Sample.env_timeout initial_state)
  = Returns (false, initial_state)
  /\ open_fds (fst (hal_ipc_init Sample.env_timeout initial_state)) [] = [].
Proof.
  apply (hal_ipc_init_failure_releases Sample.env_timeout).
  unfold init_step_fails.
  do 5 right. left. vm_compute. discriminate.
Defined.

Lemma hal_ipc_lifecycle_witness :
  snd ((hal_ipc_init Sample.env_good ;; cleanup (InRecvmsg [])) initial_state)
  = Returns (tt, initial_state)
  /\ open_fds
       (flatten_threads
          (fst ((hal_ipc_init Sample.env_good ;; cleanup (InRecvmsg []))
                  initial_state))) []
     = [].
Proof.
  apply (hal_ipc_lifecycle Bluez.HAL_MSG_MINIMUM_EVENT
           Bluez.HAL_SERVICE_ID_BLUETOOTH Bluez.BLUEZ_HAL_MTU
           Sample.env_good);
    vm_compute; (reflexivity || discriminate).
Defined.

(** [pthread_create] answers EAGAIN, then teardown: descriptor 5 is left. *)
Lemma hal_ipc_lifecycle_no_thread_witness :
  snd ((hal_ipc_init Sample.env_no_thread ;; cleanup NoThread)
         initial_state)
  = Returns (tt, {| cmd_sk := -1; notif_sk := 5; notif_th := 0 |})
  /\ open_fds
       (flatten_threads
          (fst ((hal_ipc_init Sample.env_no_thread ;; cleanup NoThread)
                  initial_state))) []
     = [5].
Proof.
  apply (hal_ipc_lifecycle_no_thread Bluez.HAL_MSG_MINIMUM_EVENT
           Bluez.HAL_SERVICE_ID_BLUETOOTH Bluez.BLUEZ_HAL_MTU
           Sample.env_no_thread);
    vm_compute; (reflexivity || discriminate).
Defined.
